(** * sam: DST labelling, wintertime averaging, timestamp completion and the
      SP(E)I drought-index transformer

    A shallow embedding of [sam/utils/time.py] and
    [sam/feature_engineering/weather_spei.py], together with a model of the
    timestamp regularizer ([sam.preprocessing.complete_timestamps]) that is
    exercised by [sam/preprocessing/tests/test_complete_timestamps.py].

    Conventions of the embedding:
    - a pandas timestamp is a number of seconds of wall-clock time since
      1970-01-01 00:00:00 ([Z]); its calendar fields are computed from it;
    - a float64 cell is a [spec_float] at precision 53 / emax 1024, so that
      not-a-number, the infinities and division by zero behave as in numpy;
    - a raised exception is the [Err] branch of a result; a method that
      mutates [self] before raising returns the mutated object next to it. *)

From Stdlib Require Import ZArith String Ascii SpecFloat.
From stdpp Require Import base tactics option list sorting strings.

Local Open Scope string_scope.
Local Open Scope Z_scope.

(** ** float64 *)

Module F64.

Definition prec : Z := 53.
Definition emax : Z := 1024.

Abbreviation float := spec_float.

Definition nan : float := S754_nan.
Definition zero : float := S754_zero false.

Definition of_Z (z : Z) : float := binary_normalize prec emax z 0 false.

Definition add : float → float → float := SFadd prec emax.
Definition sub : float → float → float := SFsub prec emax.
Definition mul : float → float → float := SFmul prec emax.
Definition div : float → float → float := SFdiv prec emax.
Definition sqrt : float → float := SFsqrt prec emax.
Definition leb : float → float → bool := SFleb.

Definition le (a b : float) : Prop := leb a b = true.

Global Instance le_dec : RelDecision le := λ a b, decide (leb a b = true).

Definition is_nan (x : float) : bool :=
  match x with S754_nan => true | _ => false end.

Definition is_inf (x : float) : bool :=
  match x with S754_infinity _ => true | _ => false end.

(** [x == 0.0] in Python: both signed zeros compare equal to zero. *)
Definition is_zero (x : float) : bool :=
  match x with S754_zero _ => true | _ => false end.

(** [Series.dropna()]: the cells that are not NaN, in order. *)
Definition dropna (xs : list float) : list float :=
  List.filter (λ x, negb (is_nan x)) xs.

(** [sum(skipna=True)]: left-to-right sum of the non-NaN cells from 0.0. *)
Definition sum (xs : list float) : float :=
  foldl add zero (dropna xs).

(** [count()]: the number of non-NaN cells. *)
Definition count (xs : list float) : Z :=
  Z.of_nat (length (dropna xs)).

(** [mean(skipna=True)]: sum over count of the non-NaN cells; 0.0 / 0 is
    NaN when there is none. *)
Definition mean (xs : list float) : float :=
  div (sum xs) (of_Z (count xs)).

(** [std(ddof=1)]: square root of the sample variance of the non-NaN
    cells; with fewer than two of them the quotient by [count - 1]
    is NaN. *)
Definition std (xs : list float) : float :=
  let m := mean xs in
  let devs := map (λ x, mul (sub x m) (sub x m)) (dropna xs) in
  if count xs <=? 1 then nan
  else sqrt (div (foldl add zero devs) (of_Z (count xs - 1))).

(** [median()] of a window: middle of the sorted non-NaN cells, the mean
    of the two middle ones when their number is even, NaN when empty. *)
Definition median (xs : list float) : float :=
  let ys := merge_sort le (dropna xs) in
  let n := length ys in
  if Nat.even n
  then match ys !! (n / 2 - 1)%nat, ys !! (n / 2)%nat with
       | Some a, Some b => div (add a b) (of_Z 2)
       | _, _ => nan
       end
  else default nan (ys !! (n / 2)%nat).

End F64.

Abbreviation float := spec_float.

(** ** Calendar fields of a timestamp *)

Module Calendar.

Definition SECONDS_PER_DAY : Z := 86400.

(** Days since the epoch of a proleptic Gregorian date. *)
Definition days_from_civil (y m d : Z) : Z :=
  let y' := if m <=? 2 then y - 1 else y in
  let era := y' / 400 in
  let yoe := y' - era * 400 in
  let mp := if 2 <? m then m - 3 else m + 9 in
  let doy := (153 * mp + 2) / 5 + d - 1 in
  let doe := yoe * 365 + yoe / 4 - yoe / 100 + doy in
  era * 146097 + doe - 719468.

(** [pd.to_datetime('y/m/d hh:mm:ss')]. *)
Definition to_datetime (y m d hh mm ss : Z) : Z :=
  days_from_civil y m d * SECONDS_PER_DAY + hh * 3600 + mm * 60 + ss.

(** (year, month, day) of a number of days since the epoch. *)
Definition civil_from_days (z : Z) : Z * Z * Z :=
  let z := z + 719468 in
  let era := z / 146097 in
  let doe := z - era * 146097 in
  let yoe := (doe - doe / 1460 + doe / 36524 - doe / 146096) / 365 in
  let doy := doe - (365 * yoe + yoe / 4 - yoe / 100) in
  let mp := (5 * doy + 2) / 153 in
  let d := doy - (153 * mp + 2) / 5 + 1 in
  let m := if mp <? 10 then mp + 3 else mp - 9 in
  let y := yoe + era * 400 in
  ((if m <=? 2 then y + 1 else y), m, d).

Definition days (t : Z) : Z := t / SECONDS_PER_DAY.

(** [.dt.month], [.dt.day], [.dt.hour]; [.dt.weekday] has Monday = 0 and
    Sunday = 6 (1970-01-01 was a Thursday). *)
Definition dt_month (t : Z) : Z := (civil_from_days (days t)).1.2.
Definition dt_day (t : Z) : Z := (civil_from_days (days t)).2.
Definition dt_hour (t : Z) : Z := (t mod SECONDS_PER_DAY) / 3600.
Definition dt_weekday (t : Z) : Z := (days t + 3) mod 7.

End Calendar.
Export Calendar.

(** ** sam/utils/time.py *)

Inductive DstLabel := normal | to_summertime | to_wintertime.

Global Instance DstLabel_eq_dec : EqDecision DstLabel.
Proof. solve_decision. Defined.

(** The three-way test of [label_dst] on one timestamp. *)
Definition last_sunday_morning (t : Z) : bool :=
  (25 <=? dt_day t) && (dt_weekday t =? 6) && (dt_hour t =? 2).

(** The nested [np.where] of [label_dst] at one position. *)
Definition label_dst_at (t : Z) : DstLabel :=
  if last_sunday_morning t && (dt_month t =? 3) then to_summertime
  else if last_sunday_morning t && (dt_month t =? 10) then to_wintertime
  else normal.

(** [label_dst(timestamps)]: [np.where] works element by element. *)
Definition label_dst (timestamps : list Z) : list DstLabel :=
  map label_dst_at timestamps.

(** ** Tables and group-by *)

(** Lexicographic comparison of group keys, the order in which pandas
    emits the groups of a [groupby] (its default is [sort=True]). *)
Fixpoint list_compare (l1 l2 : list Z) : comparison :=
  match l1, l2 with
  | [], [] => Eq
  | [], _ :: _ => Lt
  | _ :: _, [] => Gt
  | x :: l1', y :: l2' =>
      match x ?= y with
      | Eq => list_compare l1' l2'
      | c => c
      end
  end.

(** Lexicographic chaining: [c1] decides unless it is [Eq]. *)
Definition lex (c1 c2 : comparison) : comparison :=
  match c1 with Eq => c2 | _ => c1 end.

Section groupby.
Context {K A B : Type} `{EqDecision K}.
Variable compare : K → K → comparison.

Definition key_le (k1 k2 : K) : Prop := compare k1 k2 ≠ Gt.

Global Instance key_le_dec : RelDecision key_le.
Proof. intros k1 k2. unfold key_le. apply _. Defined.

(** The distinct keys of the rows, in increasing order. *)
Definition group_keys (key : A → K) (rows : list A) : list K :=
  merge_sort key_le (remove_dups (map key rows)).

(** [rows.groupby(key).agg(agg)]: one entry per distinct key, keys in
    increasing order, each group keeping the order of the rows. *)
Definition groupby (key : A → K) (agg : list A → B) (rows : list A)
  : list (K * B) :=
  map (λ k, (k, agg (filter (λ r, key r = k) rows))) (group_keys key rows).
End groupby.

(** A row of a TIME / VALUE table. Every column other than VALUE is a group
    column: TIME, and [OTHERS] for ID and whatever follows it, left to
    right. *)
Record Row := { TIME : Z; OTHERS : list Z; VALUE : float }.

(** [np.where(dst_labels == 'to_wintertime', -1, rows)], where [rows] is
    [np.arange(len(data_copy.index))] for [average_winter_time]. *)
Definition where_wintertime (dst_labels : list DstLabel) (rows : list nat) : list Z :=
  zip_with (λ l i, if decide (l = to_wintertime) then -1 else Z.of_nat i)
           dst_labels rows.

(** The column [tmp_UNID] of [average_winter_time]: -1 on the rows labelled
    to_wintertime, the row number elsewhere. *)
Definition tmp_UNID (data : list Row) : list Z :=
  let dst_labels := label_dst (map TIME data) in
  where_wintertime dst_labels (seq 0 (length data)).

(** The copy of [average_winter_time] with its temporary column, when the
    rows are numbered from [s]; [data_copy] is the one numbered from 0. *)
Definition data_copy_from (s : nat) (data : list Row) : list (Row * Z) :=
  zip data (where_wintertime (label_dst (map TIME data)) (seq s (length data))).

(** The group columns of a row of the copy: all its columns but VALUE. *)
Definition groupcols (r : Row * Z) : Z * list Z * Z := (TIME r.1, OTHERS r.1, r.2).

(** Order of the keys (TIME, other columns, tmp_UNID). *)
Definition groupcols_compare (a b : Z * list Z * Z) : comparison :=
  lex (a.1.1 ?= b.1.1) (lex (list_compare a.1.2 b.1.2) (a.2 ?= b.2)).

(** [average_winter_time(data)]. The group columns are the columns of the
    copy without VALUE, in column order: TIME, the other columns, and the
    temporary column last. The temporary column is new by construction
    (the [assert]); [reset_index] turns the keys back into columns and
    [drop] removes the temporary one. *)
Definition average_winter_time (data : list Row) : list Row :=
  let data_copy := zip data (tmp_UNID data) in
  map (λ g, {| TIME := g.1.1.1; OTHERS := g.1.1.2; VALUE := g.2 |})
      (groupby groupcols_compare groupcols
         (λ rows, F64.mean (map (λ r, VALUE r.1) rows))
         data_copy).

(** ** Errors *)

(** The error taxonomy. In the Python sources [SchemaError],
    [InvalidMetric] and [InsufficientHistoryError] are [ValueError]s told
    apart by their message, and [NotConfiguredError] is scikit-learn's
    [NotFittedError]. [KeyError], [AttributeError] and [LengthMismatch]
    are what reading a missing column, reading a missing [self.model] and
    assigning an index of the wrong length raise. *)
Inductive error :=
| SchemaError (column : string)
| InvalidMetric
| InsufficientHistoryError
| NotConfiguredError
| KeyError (column : string)
| AttributeError
| LengthMismatch
| InvalidFrequency
| UnknownAggregator
| UnknownFillMethod.

Inductive result (A : Type) :=
| Ok (a : A)
| Err (e : error).
Arguments Ok {A} a.
Arguments Err {A} e.

Definition raises {A} (r : result A) : Prop :=
  match r with Ok _ => False | Err _ => True end.

(** ** The timestamp regularizer *)

Module Regularizer.

(** Modelled from the spec: the aggregation names of
    [complete_timestamps], a function of [sam.preprocessing] that is missing
    from the sources. The spec names the mean (the default, written as the
    empty string by the tests) and the sum; any other name is
    unrecognized. *)
Definition aggregator (aggregate_method : string)
  : result (list float → float) :=
  if decide (aggregate_method = "") then Ok F64.mean
  else if decide (aggregate_method = "mean") then Ok F64.mean
  else if decide (aggregate_method = "sum") then Ok F64.sum
  else Err UnknownAggregator.

(** Modelled from the spec: the fill methods of the absent
    [complete_timestamps]: none (the empty string) and forward fill. *)
Inductive fill := NoFill | FFill.

Definition filler (fillna_method : string) : result fill :=
  if decide (fillna_method = "") then Ok NoFill
  else if decide (fillna_method = "ffill") then Ok FFill
  else Err UnknownFillMethod.

(** Modelled from the spec: the grid of the absent [complete_timestamps],
    the regular sequence from [start_time] to [end_time] (inclusive)
    stepped by the frequency: start, start + f, ... up to the end. *)
Definition grid (f start_time end_time : Z) : list Z :=
  map (λ k, start_time + Z.of_nat k * f)
      (seq 0 (Z.to_nat ((end_time - start_time) / f + 1))).

(** Modelled from the spec: flooring a timestamp of the absent
    [complete_timestamps] to a multiple of the frequency. *)
Definition floor (f t : Z) : Z := t - t mod f.

(** Modelled from the spec: the default bounds of the absent
    [complete_timestamps], the floored minimum and maximum of the input
    timestamps; there are none for an empty table. *)
Definition default_start (f : Z) (data : list Row) : option Z :=
  match map TIME data with
  | [] => None
  | t :: ts => Some (floor f (foldr Z.min t ts))
  end.

Definition default_end (f : Z) (data : list Row) : option Z :=
  match map TIME data with
  | [] => None
  | t :: ts => Some (floor f (foldr Z.max t ts))
  end.

(** Modelled from the spec: the binning rule of the absent
    [complete_timestamps], the latest grid timestamp not exceeding the
    timestamp of the row (none when the row precedes the grid). *)
Definition bin_of (g : list Z) (t : Z) : option Z :=
  last (filter (λ b, b ≤ t) g).

(** Modelled from the spec: the rows of [data] that fall in bin [b] for
    the group [k] in the absent [complete_timestamps]. *)
Definition bin_rows (g : list Z) (data : list Row) (b : Z) (k : list Z)
  : list Row :=
  filter (λ r, OTHERS r = k ∧ bin_of g (TIME r) = Some b) data.

(** Modelled from the spec: a cell of the absent [complete_timestamps]
    before filling, the aggregate of the rows of the bin, or nothing when
    no row contributes. *)
Definition cell (agg : list float → float) (g : list Z) (data : list Row)
    (k : list Z) (b : Z) : option float :=
  match bin_rows g data b k with
  | [] => None
  | rows => Some (agg (map VALUE rows))
  end.

(** Modelled from the spec: the optional maximum fill distance of the
    absent [complete_timestamps]. *)
Definition within (limit : option nat) (gap : nat) : bool :=
  match limit with
  | None => true
  | Some n => (gap <=? n)%nat
  end.

(** Modelled from the spec: forward fill of the absent
    [complete_timestamps]. An empty bin takes the most recent known value
    of its group unless it lies more than [limit] grid steps after it. *)
Fixpoint ffill (limit : option nat) (known : option float) (gap : nat)
    (cells : list (option float)) : list (option float) :=
  match cells with
  | [] => []
  | Some v :: cells' => Some v :: ffill limit (Some v) 0 cells'
  | None :: cells' =>
      (if within limit (S gap) then known else None)
        :: ffill limit known (S gap) cells'
  end.

(** Modelled from the spec: the configured fill of the absent
    [complete_timestamps]. *)
Definition fillna (m : fill) (limit : option nat)
    (cells : list (option float)) : list (option float) :=
  match m with
  | NoFill => cells
  | FFill => ffill limit None 0 cells
  end.

(** Modelled from the spec: the bounds of the absent
    [complete_timestamps]: the given ones, else the default ones. *)
Definition bounds (f : Z) (data : list Row) (start_time end_time : option Z)
  : option (Z * Z) :=
  match (if start_time is Some s then Some s else default_start f data),
        (if end_time is Some e then Some e else default_end f data) with
  | Some s, Some e => Some (s, e)
  | _, _ => None
  end.

(** Modelled from the spec: the filled cells of the group [k] in the
    absent [complete_timestamps], one per grid timestamp. *)
Definition column (agg : list float → float) (fm : fill) (limit : option nat)
    (g : list Z) (data : list Row) (k : list Z) : list (option float) :=
  fillna fm limit (map (cell agg g data k) g).

(** Modelled from the spec: the output row of the absent
    [complete_timestamps] for the [i]-th grid timestamp [b] and the group
    [k]; a value that stays missing is NaN. *)
Definition output_row (agg : list float → float) (fm : fill)
    (limit : option nat) (g : list Z) (data : list Row)
    (i : nat) (b : Z) (k : list Z) : Row :=
  {| TIME := b; OTHERS := k;
     VALUE := default F64.nan (mjoin (column agg fm limit g data k !! i)) |}.

(** Modelled from the spec: the row order of the absent
    [complete_timestamps], as the expected frames of the tests have it:
    grid timestamp by grid timestamp, and group by group within one. *)
Definition layout (groups : list (list Z)) (mk : nat → Z → list Z → Row)
    (g : list Z) : list Row :=
  mjoin (imap (λ i b, map (mk i b) groups) g).

(** Modelled from the spec: [complete_timestamps] of [sam.preprocessing],
    which is missing from the sources. Rows labelled to_wintertime that collide
    are averaged first; every grid timestamp is then paired with every
    distinct combination of the other group columns observed in the
    input, and the cell is the aggregate of the rows of that bin. The
    frequency and the bounds are taken parsed: a number of seconds, and
    optional timestamps. *)
Definition complete_timestamps (data : list Row) (freq : Z)
    (start_time end_time : option Z)
    (aggregate_method fillna_method : string) (limit : option nat)
  : result (list Row) :=
  if freq <=? 0 then Err InvalidFrequency else
  match aggregator aggregate_method, filler fillna_method with
  | Err e, _ | Ok _, Err e => Err e
  | Ok agg, Ok fm =>
      let averaged := average_winter_time data in
      let g := match bounds freq data start_time end_time with
               | Some (s, e) => grid freq s e
               | None => []
               end in
      let groups := remove_dups (map OTHERS data) in
      Ok (layout groups (output_row agg fm limit g averaged) g)
  end.

(** The upward-rounded quotient. *)
Definition ceil_div (a b : Z) : Z := - ((- a) / b).

(** The data of [test_complete_timestamps.py]. *)
Definition test_row (hh mm ss id v : Z) : Row :=
  {| TIME := to_datetime 2018 1 1 hh mm ss; OTHERS := [id]; VALUE := F64.of_Z v |}.

Definition test_data : list Row :=
  [test_row 15 45 9 1 1; test_row 16 3 9 1 2;
   test_row 16 10 9 1 3; test_row 16 22 9 1 4].

Definition test_multiple_ids_data : list Row :=
  [test_row 15 45 9 1 1; test_row 16 3 9 1 2;
   test_row 15 45 9 2 3; test_row 16 22 9 2 4].

Definition min15 : Z := 15 * 60.

(** Two readings of one group at the same wall-clock time of the repeated
    hour of 2019-10-27. *)
Definition wintertime_data : list Row :=
  [ {| TIME := to_datetime 2019 10 27 2 0 0; OTHERS := [1]; VALUE := F64.of_Z 2 |};
    {| TIME := to_datetime 2019 10 27 2 0 0; OTHERS := [1]; VALUE := F64.of_Z 3 |} ].

(** A maker of output rows that puts its timestamp and its group in the
    columns they belong to. *)
Definition well_keyed (mk : nat → Z → list Z → Row) : Prop :=
  ∀ i b k, TIME (mk i b k) = b ∧ OTHERS (mk i b k) = k.

End Regularizer.

(** ** sam/feature_engineering/weather_spei.py *)

Module SPEI.

(** A dataframe with a [DatetimeIndex] (increasing, as a time-based
    [rolling] requires) and named float columns. *)
Record DataFrame := { index : list Z; columns : list (string * list float) }.

(** A series: the index paired with the values. *)
Definition Series : Type := list (Z * float).

(** [name in X.columns]. *)
Definition has_column (name : string) (X : DataFrame) : bool :=
  bool_decide (name ∈ map fst (columns X)).

Fixpoint lookup_column (name : string) (cols : list (string * list float))
  : option (list float) :=
  match cols with
  | [] => None
  | (n, v) :: cols' => if decide (n = name) then Some v else lookup_column name cols'
  end.

(** [X[name]], a [KeyError] when the column is absent. *)
Definition getitem (X : DataFrame) (name : string) : result Series :=
  match lookup_column name (columns X) with
  | Some v => Ok (zip (index X) v)
  | None => Err (KeyError name)
  end.

(** A window such as ['30D']: the offset string and the time it spans. *)
Record Window := { offset : string; seconds : Z }.

Definition D30 : Window := {| offset := "30D"; seconds := 30 * 86400 |}.

(** One row of [self.model]. *)
Record ModelRow :=
  { month : Z; day : Z; count : Z; mean : float; std : float }.

Record SPEITransformer := {
  window : Window;
  metric : string;
  smoothing : bool;
  min_years : Z;
  metric_name : string;
  axis_name : string;
  configured : bool;
  (** absent until [configure] assigns it *)
  model : option (list ModelRow)
}.

(** [SPEITransformer(metric, window, smoothing, min_years)]; the defaults
    are ['SPEI'], ['30D'], [True] and [30]. *)
Definition __init__ (metric_ : string) (window_ : Window)
    (smoothing_ : bool) (min_years_ : Z) : SPEITransformer :=
  {| window := window_;
     metric := metric_;
     smoothing := smoothing_;
     min_years := min_years_;
     metric_name := metric_ ++ "_" ++ offset window_;
     axis_name := if decide (metric_ = "SPEI") then "Precip-Evap" else "Precip";
     configured := false;
     model := None |}.

(** *** Methods: a computation on [self] that may raise *)

Definition M (A : Type) : Type := SPEITransformer → SPEITransformer * result A.

Definition ret {A} (a : A) : M A := λ self, (self, Ok a).
Definition raise {A} (e : error) : M A := λ self, (self, Err e).
Definition bind {A B} (m : M A) (k : A → M B) : M B :=
  λ self, match m self with
          | (self', Ok a) => k a self'
          | (self', Err e) => (self', Err e)
          end.
Definition attr {A} (f : SPEITransformer → A) : M A := λ self, (self, Ok (f self)).
Definition lift {A} (r : result A) : M A := λ self, (self, r).

(** [self] after [self.model = m] and after [self.configured = b]. *)
Definition with_model (m : list ModelRow) (self : SPEITransformer) : SPEITransformer :=
  {| window := window self; metric := metric self;
     smoothing := smoothing self; min_years := min_years self;
     metric_name := metric_name self; axis_name := axis_name self;
     configured := configured self; model := Some m |}.

Definition with_configured (b : bool) (self : SPEITransformer) : SPEITransformer :=
  {| window := window self; metric := metric self;
     smoothing := smoothing self; min_years := min_years self;
     metric_name := metric_name self; axis_name := axis_name self;
     configured := b; model := model self |}.

Definition set_model (m : list ModelRow) : M unit :=
  λ self, (with_model m self, Ok tt).

Definition set_configured (b : bool) : M unit :=
  λ self, (with_configured b self, Ok tt).

(** [self.model], an [AttributeError] before the first assignment. *)
Definition get_model : M (list ModelRow) :=
  λ self, (self, match model self with Some m => Ok m | None => Err AttributeError end).

Declare Scope method_scope.
Delimit Scope method_scope with method.
Notation "x ← m ; k" := (bind m (λ x, k))
  (at level 20, m at level 100, k at level 200, only parsing) : method_scope.
Notation "m ;; k" := (bind m (λ _, k))
  (at level 100, k at level 200, only parsing, right associativity) : method_scope.
Local Open Scope method_scope.

Definition check_configured : M unit :=
  self_configured ← attr configured;
  if negb self_configured then raise NotConfiguredError else ret tt.

Definition check_X (X : DataFrame) : M unit :=
  self_metric ← attr metric;
  if negb (has_column "RH" X) then raise (SchemaError "RH")
  else if negb (has_column "EV24" X) && bool_decide (self_metric = "SPEI")
       then raise (SchemaError "EV24")
       else ret tt.

(** [target.rolling(window).mean()] on a time index: at each row, the mean
    of the non-NaN values of the rows up to it whose time lies less than
    the window before it (a time window has [min_periods=1]). *)
Fixpoint rolling_mean_from (w : Z) (seen : Series) (rest : Series) : Series :=
  match rest with
  | [] => []
  | (t, v) :: rest' =>
      let seen' := (seen ++ [(t, v)])%list in
      (t, F64.mean (map snd (filter (λ p, t - w < p.1) seen')))
        :: rolling_mean_from w seen' rest'
  end.

Definition rolling_mean (w : Window) (target : Series) : Series :=
  rolling_mean_from (seconds w) [] target.

(** [X['RH'] - X['EV24']]: both series carry the index of [X]. *)
Definition series_sub (a b : Series) : Series :=
  zip_with (λ x y, (x.1, F64.sub x.2 y.2)) a b.

Definition compute_target (X : DataFrame) : M Series :=
  self_metric ← attr metric;
  self_window ← attr window;
  target ← (if decide (self_metric = "SPI") then lift (getitem X "RH")
            else if decide (self_metric = "SPEI") then
              rh ← lift (getitem X "RH");
              ev ← lift (getitem X "EV24");
              ret (series_sub rh ev)
            else raise InvalidMetric);
  ret (rolling_mean self_window target).

(** The frame [results] of [configure] and [transform]: the target with
    the month and the day of its index. *)
Record ResultRow := { r_time : Z; r_target : float; r_month : Z; r_day : Z }.

Definition results_of (target : Series) : list ResultRow :=
  map (λ p, {| r_time := p.1; r_target := p.2;
               r_month := dt_month p.1; r_day := dt_day p.1 |}) target.

Definition month_day_compare (a b : Z * Z) : comparison :=
  lex (a.1 ?= b.1) (a.2 ?= b.2).

(** [results.groupby(['month', 'day'])[name].agg(['count', 'mean', 'std'])
    .reset_index()]. *)
Definition groupby_agg (results : list ResultRow) : list ModelRow :=
  map (λ g, {| month := g.1.1; day := g.1.2;
               count := g.2.1.1; mean := g.2.1.2; std := g.2.2 |})
      (groupby month_day_compare (λ r, (r_month r, r_day r))
         (λ rows, let xs := map r_target rows in
                  (F64.count xs, F64.mean xs, F64.std xs))
         results).

(** [.sort_values(by=['month', 'day'])]. *)
Definition sort_values (m : list ModelRow) : list ModelRow :=
  merge_sort (λ a b, key_le month_day_compare (month a, day a) (month b, day b)) m.

(** [self.model['count'].max()]: not a number on an empty frame. *)
Definition count_max (m : list ModelRow) : option Z :=
  match map count m with
  | [] => None
  | c :: cs => Some (foldr Z.max c cs)
  end.

(** [n_years < self.min_years]; a comparison with NaN is false. *)
Definition too_few (n_years : option Z) (min_years_ : Z) : bool :=
  match n_years with
  | Some n => n <? min_years_
  | None => false
  end.

(** [count < n_years / 2], with the true division of Python: the count
    is below the half exactly when its double is below [n_years]. *)
Definition below_half (c : Z) (n_years : option Z) : bool :=
  match n_years with
  | Some n => 2 * c <? n
  | None => false
  end.

(** [model.loc[model['count'] < n_years / 2, ['mean', 'std']] = np.nan]. *)
Definition mask_sparse (n_years : option Z) (m : list ModelRow) : list ModelRow :=
  map (λ r, if below_half (count r) n_years
            then {| month := month r; day := day r; count := count r;
                    mean := F64.nan; std := F64.nan |}
            else r) m.

(** [.rolling(5, center=True, min_periods=1).median()]: at row [i], the
    median of the non-NaN cells of rows [i - 2 .. i + 2] that exist, NaN
    when every one of them is NaN. *)
Definition rolling_median5 (xs : list float) : list float :=
  imap (λ i _, F64.median (take (i + 3 - (i - 2)) (drop (i - 2) xs))) xs.

Definition smooth (m : list ModelRow) : list ModelRow :=
  let means := rolling_median5 (map mean m) in
  let m1 := zip_with (λ r x, {| month := month r; day := day r; count := count r;
                                mean := x; std := std r |}) m means in
  let stds := rolling_median5 (map std m1) in
  zip_with (λ r x, {| month := month r; day := day r; count := count r;
                      mean := mean r; std := x |}) m1 stds.

Definition configure (X : DataFrame) : M unit :=
  check_X X ;;
  target ← compute_target X;
  let results := results_of target in
  set_model (sort_values (groupby_agg results)) ;;
  self_model ← get_model;
  let n_years := count_max self_model in
  self_min_years ← attr min_years;
  (if too_few n_years self_min_years then raise InsufficientHistoryError
   else ret tt) ;;
  set_model (mask_sparse n_years self_model) ;;
  self_smoothing ← attr smoothing;
  (if self_smoothing
   then self_model ← get_model; set_model (smooth self_model)
   else ret tt) ;;
  set_configured true.

Definition fit (X : DataFrame) : M unit := ret tt.

(** [results.merge(self.model, on=['month', 'day'], how='left')]: every
    row of [results] with each row of the model that has its key, or
    with NaN cells when the model has none. *)
Definition merge_left (results : list ResultRow) (m : list ModelRow)
  : list (float * float * float) :=
  mjoin (map (λ r,
           match filter (λ e, month e = r_month r ∧ day e = r_day r) m with
           | [] => [(r_target r, F64.nan, F64.nan)]
           | es => map (λ e, (r_target r, mean e, std e)) es
           end) results).

(** [results.index = target.index] needs as many labels as rows. *)
Definition set_index {A} (idx : list Z) (rows : list A) : M (list (Z * A)) :=
  if decide (length idx = length rows) then ret (zip idx rows)
  else raise LengthMismatch.

Definition transform (X : DataFrame) : M DataFrame :=
  check_configured ;;
  check_X X ;;
  target ← compute_target X;
  let results := results_of target in
  self_model ← get_model;
  merged ← set_index (map fst target) (merge_left results self_model);
  self_metric_name ← attr metric_name;
  ret {| index := map fst merged;
         columns := [(self_metric_name,
                      map (λ r, F64.div (F64.sub r.2.1.1 r.2.1.2) r.2.2) merged)] |}.

(** *** Histories of an instance *)

(** The instances that any sequence of calls can produce. *)
Inductive Reachable : SPEITransformer → Prop :=
| R_init metric_ window_ smoothing_ min_years_ :
    Reachable (__init__ metric_ window_ smoothing_ min_years_)
| R_configure self X : Reachable self → Reachable (configure X self).1
| R_fit self X : Reachable self → Reachable (fit X self).1
| R_transform self X : Reachable self → Reachable (transform X self).1.

(** The instances on which no call of [configure] has returned yet:
    every [configure] of their history raised. *)
Inductive Unconfigured : SPEITransformer → Prop :=
| U_init metric_ window_ smoothing_ min_years_ :
    Unconfigured (__init__ metric_ window_ smoothing_ min_years_)
| U_configure self X :
    Unconfigured self → raises (configure X self).2 →
    Unconfigured (configure X self).1
| U_fit self X : Unconfigured self → Unconfigured (fit X self).1
| U_transform self X : Unconfigured self → Unconfigured (transform X self).1.

Definition model_keys (m : list ModelRow) : list (Z * Z) :=
  map (λ e, (month e, day e)) m.

(** What a configured instance can rely on. *)
Definition well_formed (self : SPEITransformer) : Prop :=
  configured self = true →
  (metric self = "SPI" ∨ metric self = "SPEI") ∧
  ∃ m, model self = Some m ∧ NoDup (model_keys m).

(** The row of the model that a timestamp joins, if any. *)
Definition model_entry (m : list ModelRow) (t : Z) : option ModelRow :=
  head (filter (λ e, month e = dt_month t ∧ day e = dt_day t) m).

(** The cell that [transform] computes from a row of the target and the
    row of the model that it joins; the cells of a row that joins none
    are NaN. *)
Definition z_score (m : list ModelRow) (p : Z * float) : float :=
  match model_entry m p.1 with
  | Some e => F64.div (F64.sub p.2 (mean e)) (std e)
  | None => F64.div (F64.sub p.2 F64.nan) F64.nan
  end.

Definition is_SchemaError {A} (r : result A) : Prop :=
  ∃ column, r = Err (SchemaError column).

(** Four years of the last day of February and the first of March, one
    of them a leap year. *)
Definition leap_day_history : DataFrame :=
  let d y m dd := to_datetime y m dd 0 0 0 in
  {| index := [d 2000 2 28; d 2000 2 29; d 2000 3 1; d 2001 2 28; d 2001 3 1;
               d 2002 2 28; d 2002 3 1; d 2003 2 28; d 2003 3 1];
     columns := [("RH", map F64.of_Z [1; 2; 3; 4; 5; 6; 7; 8; 9])] |}.

(** *** Further notions on instances and frames *)

(** The attributes that [__init__] sets and no method assigns. *)
Definition parameters (self : SPEITransformer)
  : Window * string * bool * Z * string * string :=
  (window self, metric self, smoothing self, min_years self,
   metric_name self, axis_name self).

(** [X.head(n)]: the first [n] rows of a frame. *)
Definition head_rows (n : nat) (X : DataFrame) : DataFrame :=
  {| index := take n (index X);
     columns := map (λ c, (c.1, take n c.2)) (columns X) |}.

(** Every column of the frame has a cell for every label of the index. *)
Definition rectangular (X : DataFrame) : Prop :=
  Forall (λ c, length c.2 = length (index X)) (columns X).

(** The order of the (month, day) keys, spelled out. *)
Definition month_day_le (k1 k2 : Z * Z) : Prop :=
  k1.1 < k2.1 ∨ k1.1 = k2.1 ∧ k1.2 ≤ k2.2.

End SPEI.

(** ** sam/utils/time.py: unit_to_seconds *)

(** A Python string whose characters have code points below 256 is a
    [string] with one [ascii] per character. *)
Module Str.

Definition chars (s : string) : list ascii := list_ascii_of_string s.
Definition of_chars (l : list ascii) : string := string_of_list_ascii l.

(** [c.isspace()]: the white space that [str.strip()] removes. *)
Definition isspace (c : ascii) : bool :=
  let n := N_of_ascii c in
  ((9 <=? n) && (n <=? 13) || (28 <=? n) && (n <=? 32) || (n =? 133) || (n =? 160))%N.

(** [c.lower()]: the capital letters, plain and accented, move by 32. *)
Definition lower_char (c : ascii) : ascii :=
  let n := N_of_ascii c in
  if ((65 <=? n) && (n <=? 90) || (192 <=? n) && (n <=? 222) && negb (n =? 215))%N
  then ascii_of_N (n + 32) else c.

Definition lower (s : string) : string := of_chars (map lower_char (chars s)).

Fixpoint lstrip_chars (l : list ascii) : list ascii :=
  match l with
  | [] => []
  | c :: l' => if isspace c then lstrip_chars l' else l
  end.

Definition rstrip_chars (l : list ascii) : list ascii :=
  rev (lstrip_chars (rev l)).

(** [s.strip()]. *)
Definition strip (s : string) : string :=
  of_chars (rstrip_chars (lstrip_chars (chars s))).

(** [s.startswith(prefix)]. *)
Definition startswith (s prefix : string) : bool := String.prefix prefix s.

End Str.

(** [unit_to_seconds(unit)]: the number of seconds, or the message of the
    [ValueError]. *)
Definition unit_to_seconds (unit : string) : Z + string :=
  let unit := Str.strip (Str.lower unit) in
  if Str.startswith unit "sec" then inl 1
  else if Str.startswith unit "min" then inl 60
  else if Str.startswith unit "hour" then inl (60 * 60)
  else if Str.startswith unit "day" then inl (60 * 60 * 24)
  else if Str.startswith unit "week" then inl (60 * 60 * 24 * 7)
  else inr ("The unit is '" ++ unit
            ++ "', but it must start with sec, min, hour, day or week").

(** * Properties *)

Import Regularizer SPEI.

(** ** Lists *)

Lemma map_fmap {A B} (f : A → B) (l : list A) : map f l = f <$> l.
Proof. reflexivity. Qed.

(** A filter that singles out one element of a duplicate-free list. *)
Lemma filter_map_unique {K B} (f : K → B) (P : B → Prop) `{∀ b, Decision (P b)}
    (keys : list K) (k0 : K) :
  NoDup keys → k0 ∈ keys → (∀ k, k ∈ keys → P (f k) ↔ k = k0) →
  filter P (map f keys) = [f k0].
Proof.
  induction 1 as [|k keys Hk Hnd IH]; intros Hin HP.
  - by apply elem_of_nil in Hin.
  - simpl. rewrite filter_cons.
    destruct (decide (P (f k))) as [Hp|Hp].
    + apply HP in Hp; [|left]. subst k0. f_equal.
      clear IH Hin. induction keys as [|k' keys IH]; [done|].
      simpl. rewrite filter_cons.
      apply NoDup_cons in Hnd as [??]. apply not_elem_of_cons in Hk as [??].
      destruct (decide (P (f k'))) as [Hp|Hp].
      * apply HP in Hp; [congruence | right; left].
      * apply IH; [done..|]. intros k'' Hk''.
        apply elem_of_cons in Hk'' as [->|?]; [apply HP; left|].
        apply HP. right. by right.
    + apply IH.
      * apply elem_of_cons in Hin as [->|?]; [|done].
        exfalso. apply Hp, HP; [left|done].
      * intros k' ?. apply HP. by right.
Qed.

Lemma filter_none {A} (P : A → Prop) `{∀ a, Decision (P a)} (l : list A) :
  (∀ a, a ∈ l → ¬ P a) → filter P l = [].
Proof.
  induction l as [|a l IH]; intros Hl; [done|].
  rewrite filter_cons, decide_False by (apply Hl; left).
  apply IH. intros ??. apply Hl. by right.
Qed.

(** ** Group-by *)

Section groupby_facts.
Context {K A B : Type} `{EqDecision K}.
Variable compare : K → K → comparison.
Variable key : A → K.
Variable agg : list A → B.

Lemma group_keys_NoDup rows : NoDup (group_keys compare key rows).
Proof.
  unfold group_keys. rewrite merge_sort_Permutation. apply NoDup_remove_dups.
Qed.

Lemma elem_of_group_keys rows k :
  k ∈ group_keys compare key rows ↔ ∃ r, r ∈ rows ∧ key r = k.
Proof.
  unfold group_keys. rewrite merge_sort_Permutation, elem_of_remove_dups.
  rewrite map_fmap, list_elem_of_fmap. split; intros (r & ? & ?); eauto.
Qed.

Lemma groupby_fst rows :
  map fst (groupby compare key agg rows) = group_keys compare key rows.
Proof.
  unfold groupby. rewrite !map_fmap, <- list_fmap_compose.
  apply list_fmap_id.
Qed.
End groupby_facts.

(** ** label_dst *)

Lemma label_dst_length timestamps : length (label_dst timestamps) = length timestamps.
Proof. unfold label_dst. apply length_map. Qed.

(** The example of the docstring of [label_dst]: a quarter-hourly range
    over the night of 2019-10-27. *)
Example label_dst_docstring :
  label_dst (map (λ k, to_datetime 2019 10 27 1 0 0 + k * min15)
                 [0; 1; 2; 3; 4; 5; 6; 7; 8])
  = [normal; normal; normal; normal;
     to_wintertime; to_wintertime; to_wintertime; to_wintertime; normal].
Proof. reflexivity. Qed.

(** C2. [label_dst] gives every timestamp of the series one of the three
    labels, from that timestamp alone: to_summertime exactly when the day
    is the 25th or later, the weekday is Sunday, the hour is 2 and the
    month is March; to_wintertime exactly when the same holds with October
    for the month; normal exactly in the remaining cases. *)
Theorem label_dst_pointwise (timestamps : list Z) (i : nat) (t : Z) :
  timestamps !! i = Some t →
  ∃ l, label_dst timestamps !! i = Some l ∧
    (l = to_summertime ↔
       25 ≤ dt_day t ∧ dt_weekday t = 6 ∧ dt_hour t = 2 ∧ dt_month t = 3) ∧
    (l = to_wintertime ↔
       25 ≤ dt_day t ∧ dt_weekday t = 6 ∧ dt_hour t = 2 ∧ dt_month t = 10) ∧
    (l = normal ↔
       ¬ (25 ≤ dt_day t ∧ dt_weekday t = 6 ∧ dt_hour t = 2 ∧
          (dt_month t = 3 ∨ dt_month t = 10))).
Proof.
  intros Hi. exists (label_dst_at t).
  unfold label_dst. rewrite map_fmap, list_lookup_fmap, Hi. split; [done|].
  unfold label_dst_at, last_sunday_morning.
  destruct (Z.leb_spec 25 (dt_day t)), (Z.eqb_spec (dt_weekday t) 6),
    (Z.eqb_spec (dt_hour t) 2), (Z.eqb_spec (dt_month t) 3),
    (Z.eqb_spec (dt_month t) 10); simpl;
    repeat split; intros; try discriminate; try lia; try tauto.
Qed.

Lemma label_dst_pointwise_witness :
  let t := to_datetime 2019 10 27 2 15 0 in
  ∃ l, label_dst [to_datetime 2019 10 27 1 45 0; t] !! 1%nat = Some l ∧
    (l = to_summertime ↔
       25 ≤ dt_day t ∧ dt_weekday t = 6 ∧ dt_hour t = 2 ∧ dt_month t = 3) ∧
    (l = to_wintertime ↔
       25 ≤ dt_day t ∧ dt_weekday t = 6 ∧ dt_hour t = 2 ∧ dt_month t = 10) ∧
    (l = normal ↔
       ¬ (25 ≤ dt_day t ∧ dt_weekday t = 6 ∧ dt_hour t = 2 ∧
          (dt_month t = 3 ∨ dt_month t = 10))).
Proof.
  apply (label_dst_pointwise
           [to_datetime 2019 10 27 1 45 0; to_datetime 2019 10 27 2 15 0] 1).
  reflexivity.
Defined.

(** ** average_winter_time *)

Lemma data_copy_from_cons s x data :
  data_copy_from s (x :: data)
  = (x, if decide (label_dst_at (TIME x) = to_wintertime) then -1 else Z.of_nat s)
      :: data_copy_from (S s) data.
Proof. reflexivity. Qed.

Lemma data_copy_from_elem s data x u :
  (x, u) ∈ data_copy_from s data →
  x ∈ data ∧ (label_dst_at (TIME x) = to_wintertime → u = -1).
Proof.
  revert s. induction data as [|y data IH]; intros s.
  - intros Hin. by apply elem_of_nil in Hin.
  - rewrite data_copy_from_cons. intros [Heq|Hin]%elem_of_cons.
    + injection Heq as -> ->. split; [left|]. intros Hw. by rewrite decide_True.
    + apply IH in Hin as [??]. split; [by right|done].
Qed.

Lemma data_copy_from_wintertime s data x :
  x ∈ data → label_dst_at (TIME x) = to_wintertime → (x, -1) ∈ data_copy_from s data.
Proof.
  revert s. induction data as [|y data IH]; intros s Hin Hw.
  - by apply elem_of_nil in Hin.
  - rewrite data_copy_from_cons. apply elem_of_cons in Hin as [->|Hin].
    + rewrite decide_True by done. left.
    + right. by apply IH.
Qed.

(** The values of the group of a to_wintertime row are those of the rows
    with its time and its other columns, in the order of the table. *)
Lemma wintertime_group_values s data r :
  label_dst_at (TIME r) = to_wintertime →
  map (λ p : Row * Z, VALUE p.1)
      (filter (λ p, groupcols p = (TIME r, OTHERS r, -1)) (data_copy_from s data))
  = map VALUE (filter (λ x, TIME x = TIME r ∧ OTHERS x = OTHERS r) data).
Proof.
  intros Hw. revert s. induction data as [|y data IH]; intros s; [done|].
  rewrite data_copy_from_cons.
  set (u := if decide (label_dst_at (TIME y) = to_wintertime) then -1 else Z.of_nat s).
  assert (Hu : TIME y = TIME r → u = -1).
  { intros Ht. unfold u. rewrite decide_True; [done|]. by rewrite Ht. }
  clearbody u. rewrite !filter_cons.
  destruct (decide (groupcols (y, u) = (TIME r, OTHERS r, -1))) as [Hk|Hk];
    destruct (decide (TIME y = TIME r ∧ OTHERS y = OTHERS r)) as [Hc|Hc];
    simpl; rewrite ?IH; try done.
  - exfalso. apply Hc. by injection Hk.
  - exfalso. apply Hk. destruct Hc as [Ht Ho]. unfold groupcols. simpl.
    by rewrite Ht, Ho, Hu.
Qed.

(** C3. For every table and every row of it labelled to_wintertime, the
    result of [average_winter_time] has exactly one row with the time and
    the other columns of that row; these columns are unchanged and its
    value is the mean of the values of all the rows of the table that agree
    with it on the time and on the other columns. The mean is that of
    pandas: the sum of the values that are present over their number. *)
Theorem average_winter_time_merges (data : list Row) (r : Row) :
  r ∈ data → label_dst_at (TIME r) = to_wintertime →
  filter (λ o, TIME o = TIME r ∧ OTHERS o = OTHERS r) (average_winter_time data)
  = [ {| TIME := TIME r; OTHERS := OTHERS r;
         VALUE := F64.mean (map VALUE
                    (filter (λ x, TIME x = TIME r ∧ OTHERS x = OTHERS r) data)) |} ].
Proof.
  intros Hin Hw. unfold average_winter_time, groupby, tmp_UNID.
  fold (data_copy_from 0 data). rewrite map_map. simpl.
  rewrite (filter_map_unique _ _ _ (TIME r, OTHERS r, -1)).
  - simpl. by rewrite (wintertime_group_values 0 data r Hw).
  - apply group_keys_NoDup.
  - apply elem_of_group_keys. exists (r, -1). split; [|done].
    by apply data_copy_from_wintertime.
  - intros [[t o] u] Hk. simpl.
    apply elem_of_group_keys in Hk as ([x u'] & Hx & Hkey).
    injection Hkey as <- <- <-.
    apply data_copy_from_elem in Hx as [_ Hu]. split.
    + intros [Ht Ho]. rewrite Hu by (by rewrite Ht). by rewrite Ht, Ho.
    + intros Heq. by injection Heq.
Qed.

(** Two readings of 2 and 3 at one wall-clock time of the repeated hour
    become one row with the value 2.5. *)
Lemma average_winter_time_merges_witness :
  filter (λ o, TIME o = to_datetime 2019 10 27 2 0 0 ∧ OTHERS o = [1])
         (average_winter_time wintertime_data)
  = [ {| TIME := to_datetime 2019 10 27 2 0 0; OTHERS := [1];
         VALUE := F64.div (F64.of_Z 5) (F64.of_Z 2) |} ].
Proof.
  apply (average_winter_time_merges wintertime_data
           {| TIME := to_datetime 2019 10 27 2 0 0; OTHERS := [1];
              VALUE := F64.of_Z 2 |}).
  - left.
  - reflexivity.
Defined.

(** The example of the docstring of [average_winter_time]. *)
Example average_winter_time_docstring :
  let daterange k := to_datetime 2019 10 27 1 45 0 + k * min15 in
  let row k v := {| TIME := daterange k; OTHERS := []; VALUE := v |} in
  let half n := F64.div (F64.of_Z n) (F64.of_Z 2) in
  average_winter_time
    (zip_with (λ k v, row k (F64.of_Z v))
       [0; 1; 1; 2; 2; 3; 3; 4; 4; 5] [0; 1; 2; 3; 4; 5; 6; 7; 8; 9])
  = [row 0 (F64.of_Z 0); row 1 (half 3); row 2 (half 7); row 3 (half 11);
     row 4 (half 15); row 5 (F64.of_Z 9)].
Proof. vm_compute. reflexivity. Qed.

(** ** The timestamp regularizer *)

Section grid_facts.
Variables f s e : Z.
Hypothesis f_pos : 0 < f.

Lemma grid_length : length (grid f s e) = Z.to_nat ((e - s) / f + 1).
Proof. unfold grid. by rewrite length_map, length_seq. Qed.

Lemma grid_lookup i b :
  grid f s e !! i = Some b ↔
  b = s + Z.of_nat i * f ∧ (i < Z.to_nat ((e - s) / f + 1))%nat.
Proof.
  unfold grid. rewrite map_fmap, list_lookup_fmap. split.
  - intros Hi. destruct (seq _ _ !! i) as [k|] eqn:Hk; [|done].
    apply lookup_seq in Hk as [-> ?]. simpl in Hi. injection Hi as <-. done.
  - intros [-> Hi]. by rewrite lookup_seq_lt.
Qed.

(** The grid is the sequence start, start + f, ... up to the end. *)
Lemma elem_of_grid b :
  b ∈ grid f s e ↔ ∃ n, 0 ≤ n ∧ b = s + n * f ∧ b ≤ e.
Proof using f_pos.
  rewrite list_elem_of_lookup. split.
  - intros [i [-> Hi]%grid_lookup]. exists (Z.of_nat i).
    split; [lia|]. split; [done|].
    assert (Z.of_nat i ≤ (e - s) / f) by lia.
    assert (f * ((e - s) / f) ≤ e - s) by (apply Z.mul_div_le; lia).
    nia.
  - intros (n & Hn & -> & Hle). exists (Z.to_nat n). apply grid_lookup.
    split; [lia|].
    assert (n ≤ (e - s) / f) by (apply Z.div_le_lower_bound; lia).
    lia.
Qed.

Lemma grid_NoDup : NoDup (grid f s e).
Proof using f_pos.
  apply NoDup_alt. intros i j b [-> Hi]%grid_lookup [Hj _]%grid_lookup. nia.
Qed.

(** Rounding up and rounding down agree on an end that is on the grid. *)
Lemma ceil_div_exact : (f | e - s) → ceil_div (e - s) f = (e - s) / f.
Proof using f_pos.
  intros [q Hq]. unfold ceil_div. rewrite Hq.
  replace (- (q * f)) with (- q * f) by lia.
  rewrite !Z.div_mul by lia. lia.
Qed.
End grid_facts.

Section layout_facts.
Variable groups : list (list Z).
Hypothesis groups_NoDup : NoDup groups.

Lemma layout_cons mk b g :
  layout groups mk (b :: g)
  = (map (mk 0%nat b) groups ++ layout groups (λ i, mk (S i)) g)%list.
Proof. reflexivity. Qed.

Lemma elem_of_layout mk g r :
  well_keyed mk → r ∈ layout groups mk g → TIME r ∈ g ∧ OTHERS r ∈ groups.
Proof.
  intros Hmk. revert mk Hmk. induction g as [|b g IH]; intros mk Hmk.
  - intros Hin. by apply elem_of_nil in Hin.
  - rewrite layout_cons. intros [Hin|Hin]%elem_of_app.
    + rewrite map_fmap in Hin. apply list_elem_of_fmap in Hin as (k & -> & Hk).
      destruct (Hmk 0%nat b k) as [-> ->]. split; [left|done].
    + apply IH in Hin as [??]; [|intros i; apply Hmk]. split; [by right|done].
Qed.

(** The rows of one group carry the grid, in order. *)
Lemma layout_group_times mk g k :
  well_keyed mk → k ∈ groups →
  map TIME (filter (λ r, OTHERS r = k) (layout groups mk g)) = g.
Proof using groups_NoDup.
  intros Hmk Hk. revert mk Hmk. induction g as [|b g IH]; intros mk Hmk; [done|].
  rewrite layout_cons, filter_app, map_app.
  rewrite (filter_map_unique _ _ groups k); [|done..|].
  - simpl. rewrite IH by (intros i; apply Hmk). by destruct (Hmk 0%nat b k) as [-> _].
  - intros k' _. by destruct (Hmk 0%nat b k') as [_ ->].
Qed.

(** One row for a grid timestamp and a group. *)
Lemma layout_cell mk g i b k :
  well_keyed mk → NoDup g → g !! i = Some b → k ∈ groups →
  filter (λ r, TIME r = b ∧ OTHERS r = k) (layout groups mk g) = [mk i b k].
Proof using groups_NoDup.
  intros Hmk Hg Hi Hk. revert mk Hmk i Hi.
  induction Hg as [|b' g Hb' Hg IH]; intros mk Hmk i Hi; [done|].
  rewrite layout_cons, filter_app. destruct i as [|i]; simpl in Hi.
  - injection Hi as ->.
    rewrite (filter_map_unique _ _ groups k); [|done..|].
    + rewrite filter_none; [done|]. intros r Hr [Ht _].
      apply elem_of_layout in Hr as [Hr _]; [|intros i; apply Hmk]. congruence.
    + intros k' _. destruct (Hmk 0%nat b k') as [-> ->].
      split; [by intros [_ ->] | by intros ->].
  - rewrite filter_none.
    + apply (IH (λ i, mk (S i))); [intros j; apply Hmk|done].
    + intros r Hr [Ht _]. rewrite map_fmap in Hr.
      apply list_elem_of_fmap in Hr as (k' & -> & _).
      destruct (Hmk 0%nat b' k') as [Hb _]. rewrite Hb in Ht. subst b'.
      apply Hb'. by eapply list_elem_of_lookup_2.
Qed.

Lemma layout_NoDup mk g :
  well_keyed mk → NoDup g →
  NoDup (map (λ r, (TIME r, OTHERS r)) (layout groups mk g)).
Proof using groups_NoDup.
  intros Hmk Hg. revert mk Hmk.
  induction Hg as [|b g Hb Hg IH]; intros mk Hmk; [constructor|].
  rewrite layout_cons, map_app. apply NoDup_app. split; [|split].
  - rewrite map_map. rewrite map_fmap. apply NoDup_fmap_2; [|done].
    intros k1 k2 Heq. destruct (Hmk 0%nat b k1) as [_ H1], (Hmk 0%nat b k2) as [_ H2].
    injection Heq as _ Heq. congruence.
  - intros p Hp Hp'. rewrite !map_fmap in Hp, Hp'.
    apply list_elem_of_fmap in Hp as (r & -> & Hr).
    apply list_elem_of_fmap in Hr as (k & -> & _).
    apply list_elem_of_fmap in Hp' as (r' & Heq & Hr').
    apply elem_of_layout in Hr' as [Hr' _]; [|intros i; apply Hmk].
    injection Heq as Ht _. destruct (Hmk 0%nat b k) as [Hb' _].
    rewrite Hb' in Ht. by subst b.
  - apply IH. intros i. apply Hmk.
Qed.
End layout_facts.

Lemma output_row_well_keyed agg fm limit g data :
  well_keyed (output_row agg fm limit g data).
Proof. by intros i b k. Qed.

(** [complete_timestamps] with a positive step and known method names. *)
Lemma complete_timestamps_eq data f start_time end_time s e
    aggregate_method agg fillna_method fm limit :
  0 < f → bounds f data start_time end_time = Some (s, e) →
  aggregator aggregate_method = Ok agg → filler fillna_method = Ok fm →
  complete_timestamps data f start_time end_time aggregate_method fillna_method limit
  = Ok (layout (remove_dups (map OTHERS data))
          (output_row agg fm limit (grid f s e) (average_winter_time data))
          (grid f s e)).
Proof.
  intros Hf Hb Ha Hfm. unfold complete_timestamps.
  destruct (Z.leb_spec f 0); [lia|]. by rewrite Ha, Hfm, Hb.
Qed.

(** Forward filling leaves the bins that have a value alone. *)
Lemma ffill_known limit known gap cells i v :
  cells !! i = Some (Some v) → ffill limit known gap cells !! i = Some (Some v).
Proof.
  revert known gap i. induction cells as [|c cells IH]; intros known gap i; [done|].
  destruct c as [w|]; destruct i as [|i]; simpl; try done; apply IH.
Qed.

(** Forward fill with [limit=5]: the bins within five grid steps of the
    last known value take it, the sixth stays missing. *)
Example ffill_limit v :
  fillna FFill (Some 5%nat) [Some v; None; None; None; None; None; None]
  = [Some v; Some v; Some v; Some v; Some v; Some v; None].
Proof. reflexivity. Qed.

Lemma fillna_known fm limit cells i v :
  cells !! i = Some (Some v) → fillna fm limit cells !! i = Some (Some v).
Proof. destruct fm; [done|apply ffill_known]. Qed.

(** The tests of [test_complete_timestamps.py] whose result is asserted. *)
Example test_complete_timestamps :
  complete_timestamps test_data min15
    (Some (to_datetime 2018 1 1 15 45 0)) (Some (to_datetime 2018 1 1 16 30 0))
    "" "" None
  = Ok [ {| TIME := to_datetime 2018 1 1 15 45 0; OTHERS := [1]; VALUE := F64.of_Z 1 |};
         {| TIME := to_datetime 2018 1 1 16 0 0; OTHERS := [1];
            VALUE := F64.div (F64.of_Z 5) (F64.of_Z 2) |};
         {| TIME := to_datetime 2018 1 1 16 15 0; OTHERS := [1]; VALUE := F64.of_Z 4 |};
         {| TIME := to_datetime 2018 1 1 16 30 0; OTHERS := [1]; VALUE := F64.nan |} ].
Proof. vm_compute. reflexivity. Qed.

Example test_fillna_method :
  complete_timestamps test_data min15
    (Some (to_datetime 2018 1 1 15 45 0)) (Some (to_datetime 2018 1 1 16 30 0))
    "" "ffill" None
  = Ok [ {| TIME := to_datetime 2018 1 1 15 45 0; OTHERS := [1]; VALUE := F64.of_Z 1 |};
         {| TIME := to_datetime 2018 1 1 16 0 0; OTHERS := [1];
            VALUE := F64.div (F64.of_Z 5) (F64.of_Z 2) |};
         {| TIME := to_datetime 2018 1 1 16 15 0; OTHERS := [1]; VALUE := F64.of_Z 4 |};
         {| TIME := to_datetime 2018 1 1 16 30 0; OTHERS := [1]; VALUE := F64.of_Z 4 |} ].
Proof. vm_compute. reflexivity. Qed.

Example test_empty_start_end_time :
  complete_timestamps test_data min15 None None "" "" None
  = Ok [ {| TIME := to_datetime 2018 1 1 15 45 0; OTHERS := [1]; VALUE := F64.of_Z 1 |};
         {| TIME := to_datetime 2018 1 1 16 0 0; OTHERS := [1];
            VALUE := F64.div (F64.of_Z 5) (F64.of_Z 2) |};
         {| TIME := to_datetime 2018 1 1 16 15 0; OTHERS := [1]; VALUE := F64.of_Z 4 |} ].
Proof. vm_compute. reflexivity. Qed.

Example test_multiple_ids :
  complete_timestamps test_multiple_ids_data min15
    (Some (to_datetime 2018 1 1 15 45 0)) (Some (to_datetime 2018 1 1 16 15 0))
    "" "" None
  = Ok [ {| TIME := to_datetime 2018 1 1 15 45 0; OTHERS := [1]; VALUE := F64.of_Z 1 |};
         {| TIME := to_datetime 2018 1 1 15 45 0; OTHERS := [2]; VALUE := F64.of_Z 3 |};
         {| TIME := to_datetime 2018 1 1 16 0 0; OTHERS := [1]; VALUE := F64.of_Z 2 |};
         {| TIME := to_datetime 2018 1 1 16 0 0; OTHERS := [2]; VALUE := F64.nan |};
         {| TIME := to_datetime 2018 1 1 16 15 0; OTHERS := [1]; VALUE := F64.nan |};
         {| TIME := to_datetime 2018 1 1 16 15 0; OTHERS := [2]; VALUE := F64.of_Z 4 |} ].
Proof. vm_compute. reflexivity. Qed.

Example test_multiple_ids_fillna_method :
  complete_timestamps test_multiple_ids_data min15
    (Some (to_datetime 2018 1 1 15 45 0)) (Some (to_datetime 2018 1 1 16 15 0))
    "" "ffill" None
  = Ok [ {| TIME := to_datetime 2018 1 1 15 45 0; OTHERS := [1]; VALUE := F64.of_Z 1 |};
         {| TIME := to_datetime 2018 1 1 15 45 0; OTHERS := [2]; VALUE := F64.of_Z 3 |};
         {| TIME := to_datetime 2018 1 1 16 0 0; OTHERS := [1]; VALUE := F64.of_Z 2 |};
         {| TIME := to_datetime 2018 1 1 16 0 0; OTHERS := [2]; VALUE := F64.of_Z 3 |};
         {| TIME := to_datetime 2018 1 1 16 15 0; OTHERS := [1]; VALUE := F64.of_Z 2 |};
         {| TIME := to_datetime 2018 1 1 16 15 0; OTHERS := [2]; VALUE := F64.of_Z 4 |} ].
Proof. vm_compute. reflexivity. Qed.

Example test_incorrect_input :
  complete_timestamps test_data min15
    (Some (to_datetime 2018 1 1 15 45 0)) (Some (to_datetime 2018 1 1 16 30 0))
    "unknown_fun" "" None = Err UnknownAggregator ∧
  complete_timestamps test_data min15
    (Some (to_datetime 2018 1 1 15 45 0)) (Some (to_datetime 2018 1 1 16 30 0))
    "" "unknown_fun" None = Err UnknownFillMethod.
Proof. split; reflexivity. Qed.

(** C1, as stated, at an end bound that is not on the grid: from 15:45:00
    to 16:05:00 in steps of 15 minutes the group has the two rows of
    15:45:00 and 16:00:00, while the quotient rounded up, plus one, is
    three. *)
Lemma complete_timestamps_row_count_unaligned :
  let start_time := to_datetime 2018 1 1 15 45 0 in
  let end_time := to_datetime 2018 1 1 16 5 0 in
  ∃ out,
    complete_timestamps test_data min15 (Some start_time) (Some end_time) "" "" None
    = Ok out ∧
    map TIME (filter (λ r, OTHERS r = [1]) out)
    = [to_datetime 2018 1 1 15 45 0; to_datetime 2018 1 1 16 0 0] ∧
    length (filter (λ r, OTHERS r = [1]) out)
    ≠ Z.to_nat (ceil_div (end_time - start_time) min15 + 1).
Proof.
  eexists. split; [vm_compute; reflexivity|]. split; [reflexivity|].
  vm_compute. discriminate.
Qed.

(** C1, amended. For a positive step [f], bounds [s] and [e] and every
    combination [k] of the group columns observed in the input, the rows of
    the output for [k] carry exactly the grid timestamps [s], [s + f], ...
    that do not exceed [e], each once and in order: there are
    [⌊(e - s) / f⌋ + 1] of them (none when [e < s]), which is
    [⌈(e - s) / f⌉ + 1] when [s ≤ e] and [f] divides [e - s]; and no
    (grid timestamp, group) pair occurs twice in the output. *)
Theorem complete_timestamps_rows_per_group
    (data : list Row) (f : Z) (start_time end_time : option Z) (s e : Z)
    (aggregate_method fillna_method : string) (limit : option nat)
    (agg : list float → float) (fm : fill) (k : list Z) :
  0 < f →
  bounds f data start_time end_time = Some (s, e) →
  aggregator aggregate_method = Ok agg →
  filler fillna_method = Ok fm →
  k ∈ map OTHERS data →
  ∃ out,
    complete_timestamps data f start_time end_time
      aggregate_method fillna_method limit = Ok out ∧
    map TIME (filter (λ r, OTHERS r = k) out) = grid f s e ∧
    (∀ b, b ∈ grid f s e ↔ ∃ n, 0 ≤ n ∧ b = s + n * f ∧ b ≤ e) ∧
    length (filter (λ r, OTHERS r = k) out) = Z.to_nat ((e - s) / f + 1) ∧
    (s ≤ e → (f | e - s) →
     length (filter (λ r, OTHERS r = k) out) = Z.to_nat (ceil_div (e - s) f + 1)) ∧
    NoDup (map (λ r, (TIME r, OTHERS r)) out).
Proof.
  intros Hf Hb Ha Hfm Hk. eexists. split; [by eapply complete_timestamps_eq|].
  assert (Hg : NoDup (remove_dups (map OTHERS data))) by apply NoDup_remove_dups.
  assert (Hg' : k ∈ remove_dups (map OTHERS data)) by by apply elem_of_remove_dups.
  assert (Htimes := layout_group_times _ Hg _ (grid f s e) k
                      (output_row_well_keyed agg fm limit (grid f s e)
                         (average_winter_time data)) Hg').
  assert (Hlen : length (filter (λ r, OTHERS r = k)
                   (layout (remove_dups (map OTHERS data))
                      (output_row agg fm limit (grid f s e) (average_winter_time data))
                      (grid f s e))) = Z.to_nat ((e - s) / f + 1)).
  { rewrite <- (length_map TIME), Htimes. apply grid_length. }
  split; [done|]. split; [intros b; by apply elem_of_grid|].
  split; [done|]. split.
  - intros _ Hdiv. rewrite Hlen. by rewrite ceil_div_exact.
  - apply layout_NoDup; [done|apply output_row_well_keyed|by apply grid_NoDup].
Qed.

Lemma complete_timestamps_rows_per_group_witness :
  ∃ out,
    complete_timestamps test_multiple_ids_data min15
      (Some (to_datetime 2018 1 1 15 45 0)) (Some (to_datetime 2018 1 1 16 15 0))
      "" "" None = Ok out ∧
    map TIME (filter (λ r, OTHERS r = [2]) out)
    = grid min15 (to_datetime 2018 1 1 15 45 0) (to_datetime 2018 1 1 16 15 0) ∧
    (∀ b, b ∈ grid min15 (to_datetime 2018 1 1 15 45 0) (to_datetime 2018 1 1 16 15 0)
          ↔ ∃ n, 0 ≤ n ∧ b = to_datetime 2018 1 1 15 45 0 + n * min15
                 ∧ b ≤ to_datetime 2018 1 1 16 15 0) ∧
    length (filter (λ r, OTHERS r = [2]) out)
    = Z.to_nat ((to_datetime 2018 1 1 16 15 0 - to_datetime 2018 1 1 15 45 0) / min15 + 1) ∧
    (to_datetime 2018 1 1 15 45 0 ≤ to_datetime 2018 1 1 16 15 0 →
     (min15 | to_datetime 2018 1 1 16 15 0 - to_datetime 2018 1 1 15 45 0) →
     length (filter (λ r, OTHERS r = [2]) out)
     = Z.to_nat (ceil_div (to_datetime 2018 1 1 16 15 0 - to_datetime 2018 1 1 15 45 0)
                   min15 + 1)) ∧
    NoDup (map (λ r, (TIME r, OTHERS r)) out).
Proof.
  apply (complete_timestamps_rows_per_group test_multiple_ids_data min15
           (Some (to_datetime 2018 1 1 15 45 0)) (Some (to_datetime 2018 1 1 16 15 0))
           (to_datetime 2018 1 1 15 45 0) (to_datetime 2018 1 1 16 15 0)
           "" "" None F64.mean NoFill [2]).
  - reflexivity.
  - reflexivity.
  - reflexivity.
  - reflexivity.
  - vm_compute. right. right. left.
Defined.

(** The rows of a bin that is not empty give the cell its aggregate. *)
Lemma output_row_value agg fm limit g data i b k :
  g !! i = Some b → bin_rows g data b k ≠ [] →
  output_row agg fm limit g data i b k
  = {| TIME := b; OTHERS := k; VALUE := agg (map VALUE (bin_rows g data b k)) |}.
Proof.
  intros Hi Hrows. unfold output_row, column. f_equal.
  rewrite (fillna_known fm limit _ i (agg (map VALUE (bin_rows g data b k)))); [done|].
  rewrite map_fmap, list_lookup_fmap, Hi. simpl. unfold cell.
  by destruct (bin_rows g data b k).
Qed.

(** C4, as stated, on the repeated hour: two rows of one group at
    02:00:00 of 2019-10-27 with the values 2 and 3 both fall in the bin of
    02:00:00; with the sum as aggregation the value of the bin is 2.5, the
    sum of the one row that averaging left, and not 5. *)
Lemma complete_timestamps_sum_after_averaging :
  let t := to_datetime 2019 10 27 2 0 0 in
  bin_rows (grid min15 t t) wintertime_data t [1] = wintertime_data ∧
  map VALUE wintertime_data = [F64.of_Z 2; F64.of_Z 3] ∧
  complete_timestamps wintertime_data min15 (Some t) (Some t) "sum" "" None
  = Ok [ {| TIME := t; OTHERS := [1]; VALUE := F64.div (F64.of_Z 5) (F64.of_Z 2) |} ] ∧
  F64.div (F64.of_Z 5) (F64.of_Z 2) ≠ F64.sum (map VALUE wintertime_data).
Proof.
  split; [reflexivity|]. split; [reflexivity|]. split; [vm_compute; reflexivity|].
  vm_compute. discriminate.
Qed.

(** C4, amended. When one or more rows fall in a grid bin for a group
    after the rows labelled to_wintertime that share a time and a group
    have been averaged, the output has one row for that bin and group, and
    its value is the configured aggregation of the values of those rows,
    with or without a fill method: the mean by default, so that 2 and 3
    give 2.5, and the sum for ['sum'], so that 2 and 3 give 5. *)
Theorem complete_timestamps_bin_value
    (data : list Row) (f : Z) (start_time end_time : option Z) (s e : Z)
    (aggregate_method fillna_method : string) (limit : option nat)
    (agg : list float → float) (fm : fill) (b : Z) (k : list Z) :
  0 < f →
  bounds f data start_time end_time = Some (s, e) →
  aggregator aggregate_method = Ok agg →
  filler fillna_method = Ok fm →
  b ∈ grid f s e →
  k ∈ map OTHERS data →
  bin_rows (grid f s e) (average_winter_time data) b k ≠ [] →
  (∃ out,
     complete_timestamps data f start_time end_time
       aggregate_method fillna_method limit = Ok out ∧
     filter (λ r, TIME r = b ∧ OTHERS r = k) out
     = [ {| TIME := b; OTHERS := k;
            VALUE := agg (map VALUE
                       (bin_rows (grid f s e) (average_winter_time data) b k)) |} ]) ∧
  aggregator "" = Ok F64.mean ∧
  aggregator "sum" = Ok F64.sum ∧
  F64.mean [F64.of_Z 2; F64.of_Z 3] = F64.div (F64.of_Z 5) (F64.of_Z 2) ∧
  F64.sum [F64.of_Z 2; F64.of_Z 3] = F64.of_Z 5.
Proof.
  intros Hf Hb Ha Hfm Hbin Hk Hrows.
  split; [|by repeat split].
  eexists. split; [by eapply complete_timestamps_eq|].
  apply list_elem_of_lookup in Hbin as [i Hi].
  rewrite (layout_cell _ (NoDup_remove_dups _) _ _ i b k).
  - by rewrite output_row_value.
  - apply output_row_well_keyed.
  - by apply grid_NoDup.
  - done.
  - by apply elem_of_remove_dups.
Qed.

Lemma complete_timestamps_bin_value_witness :
  let s := to_datetime 2018 1 1 15 45 0 in
  let e := to_datetime 2018 1 1 16 30 0 in
  let b := to_datetime 2018 1 1 16 0 0 in
  (∃ out,
     complete_timestamps test_data min15 (Some s) (Some e) "sum" "ffill" None = Ok out ∧
     filter (λ r, TIME r = b ∧ OTHERS r = [1]) out
     = [ {| TIME := b; OTHERS := [1]; VALUE := F64.of_Z 5 |} ]) ∧
  aggregator "" = Ok F64.mean ∧
  aggregator "sum" = Ok F64.sum ∧
  F64.mean [F64.of_Z 2; F64.of_Z 3] = F64.div (F64.of_Z 5) (F64.of_Z 2) ∧
  F64.sum [F64.of_Z 2; F64.of_Z 3] = F64.of_Z 5.
Proof.
  apply (complete_timestamps_bin_value test_data min15
           (Some (to_datetime 2018 1 1 15 45 0)) (Some (to_datetime 2018 1 1 16 30 0))
           (to_datetime 2018 1 1 15 45 0) (to_datetime 2018 1 1 16 30 0)
           "sum" "ffill" None F64.sum FFill (to_datetime 2018 1 1 16 0 0) [1]).
  - reflexivity.
  - reflexivity.
  - reflexivity.
  - reflexivity.
  - vm_compute. right. left.
  - vm_compute. left.
  - vm_compute. discriminate.
Defined.

(** ** The SP(E)I transformer *)

Lemma check_configured_eq self :
  check_configured self
  = (self, if configured self then Ok tt else Err NotConfiguredError).
Proof. unfold check_configured, bind, attr, raise, ret. by destruct (configured self). Qed.

Lemma check_X_eq X self :
  check_X X self =
  (self,
   if negb (has_column "RH" X) then Err (SchemaError "RH")
   else if negb (has_column "EV24" X) && bool_decide (metric self = "SPEI")
        then Err (SchemaError "EV24")
        else Ok tt).
Proof.
  unfold check_X, bind, attr, raise, ret.
  by destruct (has_column "RH" X), (has_column "EV24" X),
    (bool_decide (metric self = "SPEI")).
Qed.

Lemma has_column_lookup name X :
  has_column name X = true ↔ is_Some (lookup_column name (columns X)).
Proof.
  unfold has_column. rewrite bool_decide_eq_true.
  induction (columns X) as [|[n v] cols IH]; simpl.
  - split; [by intros ?%elem_of_nil | by intros [??]].
  - rewrite elem_of_cons, IH. destruct (decide (n = name)) as [->|?].
    + split; [by eexists | by left].
    + split; [by intros [?|?] | by right].
Qed.

Lemma getitem_ok name X :
  has_column name X = true → ∃ s, getitem X name = Ok s.
Proof.
  intros [v Hv]%has_column_lookup. unfold getitem. rewrite Hv. by eexists.
Qed.

Lemma getitem_err name X e : getitem X name = Err e → e = KeyError name.
Proof.
  unfold getitem. destruct (lookup_column _ _); [done|]. by intros [= <-].
Qed.

(** [compute_target] leaves [self] alone; it returns a target only for one
    of the two metrics, and raises nothing but an invalid metric or a
    missing column. *)
Lemma compute_target_cases X self :
  (∃ target, compute_target X self = (self, Ok target) ∧
             (metric self = "SPI" ∨ metric self = "SPEI")) ∨
  (∃ e, compute_target X self = (self, Err e) ∧
        (e = InvalidMetric ∨ ∃ c, e = KeyError c)).
Proof.
  unfold compute_target, bind, attr, raise, ret, lift.
  destruct (decide (metric self = "SPI")) as [Hm|Hm].
  { destruct (getitem X "RH") as [rh|e] eqn:Hrh.
    - left. eauto.
    - right. exists e. split; [done|]. right. apply getitem_err in Hrh. eauto. }
  destruct (decide (metric self = "SPEI")) as [Hm'|Hm'].
  - destruct (getitem X "RH") as [rh|e] eqn:Hrh.
    + destruct (getitem X "EV24") as [ev|e] eqn:Hev.
      * left. eauto.
      * right. exists e. split; [done|]. right. apply getitem_err in Hev. eauto.
    + right. exists e. split; [done|]. right. apply getitem_err in Hrh. eauto.
  - right. exists InvalidMetric. split; [done|]. by left.
Qed.

Lemma compute_target_ok X self :
  has_column "RH" X = true →
  metric self = "SPI" ∨ (metric self = "SPEI" ∧ has_column "EV24" X = true) →
  ∃ target, compute_target X self = (self, Ok target).
Proof.
  intros [rh Hrh]%getitem_ok Hm.
  unfold compute_target, bind, attr, raise, ret, lift. rewrite Hrh.
  destruct Hm as [Hm|[Hm [ev Hev]%getitem_ok]].
  - rewrite decide_True by done. eauto.
  - rewrite decide_False by (by rewrite Hm). rewrite decide_True by done.
    rewrite Hev. eauto.
Qed.

(** [configure] once the frame has passed [check_X] and the target exists. *)
Lemma configure_eq X self target :
  check_X X self = (self, Ok tt) →
  compute_target X self = (self, Ok target) →
  let m := sort_values (groupby_agg (results_of target)) in
  let n_years := count_max m in
  configure X self =
  if too_few n_years (min_years self)
  then (with_model m self, Err InsufficientHistoryError)
  else (with_configured true
          (with_model (if smoothing self then smooth (mask_sparse n_years m)
                       else mask_sparse n_years m) self), Ok tt).
Proof.
  intros Hc Ht. unfold configure, bind. rewrite Hc, Ht. simpl.
  destruct (too_few _ _); [done|]. simpl.
  by destruct (smoothing self).
Qed.

Lemma configure_check_fails X self e :
  check_X X self = (self, Err e) → configure X self = (self, Err e).
Proof. intros Hc. unfold configure, bind. by rewrite Hc. Qed.

Lemma configure_target_fails X self e :
  check_X X self = (self, Ok tt) → compute_target X self = (self, Err e) →
  configure X self = (self, Err e).
Proof. intros Hc Ht. unfold configure, bind. by rewrite Hc, Ht. Qed.

(** The outcomes of [configure]. *)
Lemma configure_cases X self :
  (∃ e, configure X self = (self, Err e) ∧ e ≠ InsufficientHistoryError ∧
        (check_X X self = (self, Err e) ∨
         check_X X self = (self, Ok tt) ∧ compute_target X self = (self, Err e))) ∨
  (∃ target,
     check_X X self = (self, Ok tt) ∧
     compute_target X self = (self, Ok target) ∧
     (metric self = "SPI" ∨ metric self = "SPEI")).
Proof.
  pose proof (check_X_eq X self) as Hc.
  destruct (negb (has_column "RH" X)).
  { left. eexists. split; [by apply configure_check_fails|]. split; [done|by left]. }
  destruct (negb (has_column "EV24" X) && bool_decide (metric self = "SPEI")).
  { left. eexists. split; [by apply configure_check_fails|]. split; [done|by left]. }
  destruct (compute_target_cases X self) as [(target & Ht & Hm)|(e & Ht & He)].
  - right. eauto.
  - left. exists e. split; [by apply configure_target_fails|].
    split; [|by right]. by destruct He as [->|[c ->]].
Qed.

(** *** The keys of the model *)

Lemma groupby_agg_keys results :
  model_keys (groupby_agg results)
  = group_keys month_day_compare (λ r, (r_month r, r_day r)) results.
Proof.
  unfold model_keys, groupby_agg. rewrite map_map. simpl.
  rewrite <- (groupby_fst month_day_compare (λ r, (r_month r, r_day r))
               (λ rows, let xs := map r_target rows in
                        (F64.count xs, F64.mean xs, F64.std xs))).
  apply map_ext. by intros [[??]?].
Qed.

Lemma sort_values_keys m : model_keys (sort_values m) ≡ₚ model_keys m.
Proof.
  unfold model_keys, sort_values. rewrite !map_fmap.
  by rewrite merge_sort_Permutation.
Qed.

Lemma mask_sparse_keys n m : model_keys (mask_sparse n m) = model_keys m.
Proof.
  unfold model_keys, mask_sparse. rewrite map_map. apply map_ext.
  intros e. by destruct (below_half _ _).
Qed.

Lemma mask_sparse_counts n m : map count (mask_sparse n m) = map count m.
Proof.
  unfold mask_sparse. rewrite map_map. apply map_ext.
  intros e. by destruct (below_half _ _).
Qed.

Lemma rolling_median5_length xs : length (rolling_median5 xs) = length xs.
Proof. unfold rolling_median5. apply length_imap. Qed.

Lemma zip_with_keys {X} (f : ModelRow → X → ModelRow) m xs :
  length m = length xs → (∀ e x, month (f e x) = month e ∧ day (f e x) = day e) →
  model_keys (zip_with f m xs) = model_keys m.
Proof.
  intros Hlen Hf. revert xs Hlen. induction m as [|e m IH]; intros [|x xs] Hlen;
    try done.
  simpl. destruct (Hf e x) as [-> ->]. f_equal. apply IH. by injection Hlen.
Qed.

Lemma smooth_keys m : model_keys (smooth m) = model_keys m.
Proof.
  unfold smooth.
  assert (Hlen1 : length m = length (rolling_median5 (map mean m))).
  { by rewrite rolling_median5_length, length_map. }
  rewrite zip_with_keys; [by apply zip_with_keys| |done].
  rewrite rolling_median5_length, length_map, length_zip_with.
  rewrite <- Hlen1. lia.
Qed.

(** Every model that [configure] stores has one row per key. *)
Lemma stored_model_NoDup target n (b : bool) :
  let m := sort_values (groupby_agg (results_of target)) in
  NoDup (model_keys m) ∧
  NoDup (model_keys (if b then smooth (mask_sparse n m) else mask_sparse n m)).
Proof.
  intros m.
  assert (NoDup (model_keys m)).
  { unfold m. rewrite sort_values_keys, groupby_agg_keys. apply group_keys_NoDup. }
  split; [done|]. destruct b; by rewrite ?smooth_keys, mask_sparse_keys.
Qed.

Lemma configure_well_formed X self :
  well_formed self → well_formed (configure X self).1.
Proof.
  intros Hwf.
  destruct (configure_cases X self) as [(e & -> & _)|(target & Hc & Ht & Hm)]; [done|].
  rewrite (configure_eq X self target Hc Ht).
  destruct (stored_model_NoDup target
              (count_max (sort_values (groupby_agg (results_of target))))
              (smoothing self)) as [Hnd1 Hnd2].
  destruct (too_few _ _); simpl; intros _; (split; [done|]); eauto.
Qed.

Lemma fit_eq X self : fit X self = (self, Ok tt).
Proof. reflexivity. Qed.

(** *** transform *)

Lemma transform_unconfigured X self :
  configured self = false → transform X self = (self, Err NotConfiguredError).
Proof.
  intros Hc. unfold transform, bind. by rewrite check_configured_eq, Hc.
Qed.

(** [transform] never assigns to [self]. *)
Lemma transform_fst X self : (transform X self).1 = self.
Proof.
  unfold transform, bind. rewrite check_configured_eq.
  destruct (configured self); [|done]. rewrite check_X_eq.
  destruct (negb (has_column "RH" X)); [done|].
  destruct (negb (has_column "EV24" X) && bool_decide (metric self = "SPEI")); [done|].
  destruct (compute_target_cases X self) as [(target & -> & _)|(e & -> & _)]; [|done].
  unfold get_model, set_index, attr, ret, raise.
  destruct (model self) as [m|]; [|done].
  by destruct (decide _).
Qed.

(** A model with one row per key has at most one row for a timestamp. *)
Lemma model_entry_unique m t :
  NoDup (model_keys m) →
  filter (λ e, month e = dt_month t ∧ day e = dt_day t) m
  = match model_entry m t with Some e => [e] | None => [] end.
Proof.
  unfold model_entry. induction m as [|e m IH]; [done|]. simpl.
  intros [Hk Hnd]%NoDup_cons. rewrite filter_cons.
  destruct (decide (month e = dt_month t ∧ day e = dt_day t)) as [[Hm Hd]|_].
  - simpl. f_equal. apply filter_none. intros e' He' [Hm' Hd']. apply Hk.
    unfold model_keys. rewrite map_fmap. apply list_elem_of_fmap.
    exists e'. split; [|done]. congruence.
  - by apply IH.
Qed.

Lemma merge_left_unique target m :
  NoDup (model_keys m) →
  merge_left (results_of target) m
  = map (λ p, match model_entry m p.1 with
              | Some e => (p.2, mean e, std e)
              | None => (p.2, F64.nan, F64.nan)
              end) target.
Proof.
  intros Hnd. unfold merge_left, results_of. rewrite map_map. simpl.
  induction target as [|[t v] target IH]; [done|]. simpl.
  rewrite IH, model_entry_unique by done.
  by destruct (model_entry m t).
Qed.

Lemma joined_z_scores m target :
  map (λ r : Z * (float * float * float), F64.div (F64.sub r.2.1.1 r.2.1.2) r.2.2)
      (zip (map fst target)
         (map (λ p : Z * float,
                 match model_entry m p.1 with
                 | Some e => (p.2, mean e, std e)
                 | None => (p.2, F64.nan, F64.nan)
                 end) target))
  = map (z_score m) target.
Proof.
  induction target as [|[t v] target IH]; [done|]. simpl. rewrite IH.
  f_equal. unfold z_score. simpl. by destruct (model_entry m t).
Qed.

Lemma joined_index {A} (g : Z * float → A) target :
  map fst (zip (map fst target) (map g target)) = map fst target.
Proof. rewrite map_fmap. apply fst_zip. by rewrite !length_map. Qed.

(** [transform] on a configured instance whose frame passes [check_X]. *)
Lemma transform_eq X self target m :
  configured self = true →
  check_X X self = (self, Ok tt) →
  compute_target X self = (self, Ok target) →
  model self = Some m → NoDup (model_keys m) →
  transform X self
  = (self, Ok {| index := map fst target;
                 columns := [(metric_name self, map (z_score m) target)] |}).
Proof.
  intros Hconf Hc Ht Hm Hnd. unfold transform, bind.
  rewrite check_configured_eq, Hconf, Hc, Ht. unfold get_model. rewrite Hm.
  rewrite merge_left_unique by done. unfold set_index.
  rewrite decide_True by (by rewrite !length_map).
  unfold attr, ret. simpl. by rewrite joined_z_scores, joined_index.
Qed.

(** *** Histories *)

Lemma Reachable_well_formed self : Reachable self → well_formed self.
Proof.
  induction 1 as [| self X _ IH | self X _ IH | self X _ IH].
  - by intros ?.
  - by apply configure_well_formed.
  - done.
  - by rewrite transform_fst.
Qed.

(** A raising [configure] leaves the flag as it was. *)
Lemma configure_raises_configured X self :
  raises (configure X self).2 →
  configured (configure X self).1 = configured self.
Proof.
  destruct (configure_cases X self) as [(e & -> & _)|(target & Hc & Ht & _)]; [done|].
  rewrite (configure_eq X self target Hc Ht).
  by destruct (too_few _ _).
Qed.

Lemma Unconfigured_configured self : Unconfigured self → configured self = false.
Proof.
  induction 1 as [| self X _ IH Hr | self X _ IH | self X _ IH].
  - done.
  - by rewrite configure_raises_configured.
  - done.
  - by rewrite transform_fst.
Qed.

(** *** float64 edge cases *)

Lemma div_by_zero x z :
  F64.is_zero z = true →
  F64.is_inf (F64.div x z) = true ∨ F64.is_nan (F64.div x z) = true.
Proof. destruct z; try done. intros _. destruct x; simpl; auto. Qed.

Lemma div_nan_r x z : F64.is_nan z = true → F64.is_nan (F64.div x z) = true.
Proof. destruct z; try done. by destruct x. Qed.

Lemma div_nan_l x z : F64.is_nan x = true → F64.is_nan (F64.div x z) = true.
Proof. by destruct x. Qed.

Lemma sub_nan_r x y : F64.is_nan y = true → F64.is_nan (F64.sub x y) = true.
Proof. destruct y; try done. by destruct x. Qed.

(** *** The claims on the transformer *)

(** C7. On every instance on which no [configure] has returned (a fresh
    instance, then calls of [fit], of [transform], and calls of [configure]
    that raised), [transform] raises [NotConfiguredError] for every frame,
    and leaves the instance as it was. *)
Theorem transform_before_configure (self : SPEITransformer) (X : DataFrame) :
  Unconfigured self → transform X self = (self, Err NotConfiguredError).
Proof. intros Hu. by apply transform_unconfigured, Unconfigured_configured. Qed.

Lemma transform_before_configure_witness :
  let self := (configure leap_day_history (__init__ "SPI" D30 true 30)).1 in
  transform leap_day_history self = (self, Err NotConfiguredError).
Proof.
  apply (transform_before_configure
           (configure leap_day_history (__init__ "SPI" D30 true 30)).1
           leap_day_history).
  apply U_configure; [apply U_init|]. vm_compute. exact I.
Defined.

(** C10. When [configure] raises on an unconfigured instance, the instance
    stays unconfigured: the flag is still [False] and [transform] raises
    [NotConfiguredError] on every frame, without changing the instance;
    and when it was the check of [min_years] that raised, the instance
    nevertheless holds the freshly grouped model. *)
Theorem configure_raises_stays_unconfigured (self : SPEITransformer) (X : DataFrame) :
  configured self = false → raises (configure X self).2 →
  configured (configure X self).1 = false ∧
  (∀ X', transform X' (configure X self).1
         = ((configure X self).1, Err NotConfiguredError)) ∧
  ((configure X self).2 = Err InsufficientHistoryError →
   ∃ target, compute_target X self = (self, Ok target) ∧
     model (configure X self).1
     = Some (sort_values (groupby_agg (results_of target)))).
Proof.
  intros Hconf Hr.
  assert (Hc' : configured (configure X self).1 = false).
  { by rewrite configure_raises_configured. }
  split; [done|]. split; [intros X'; by apply transform_unconfigured|].
  destruct (configure_cases X self) as [(e & He & Hne & _)|(target & Hc & Ht & _)].
  - rewrite He. simpl. by intros [= ->].
  - intros _. exists target. split; [done|].
    rewrite (configure_eq X self target Hc Ht) in Hr |- *.
    by destruct (too_few _ _).
Qed.

Lemma configure_raises_stays_unconfigured_witness :
  let self := __init__ "SPI" D30 true 30 in
  configured (configure leap_day_history self).1 = false ∧
  (∀ X', transform X' (configure leap_day_history self).1
         = ((configure leap_day_history self).1, Err NotConfiguredError)) ∧
  ((configure leap_day_history self).2 = Err InsufficientHistoryError →
   ∃ target, compute_target leap_day_history self = (self, Ok target) ∧
     model (configure leap_day_history self).1
     = Some (sort_values (groupby_agg (results_of target)))).
Proof.
  apply (configure_raises_stays_unconfigured (__init__ "SPI" D30 true 30)
           leap_day_history).
  - reflexivity.
  - vm_compute. exact I.
Defined.

(** Past [check_X], [transform] raises no [SchemaError]. *)
Lemma transform_not_schema X self :
  check_X X self = (self, Ok tt) → ¬ is_SchemaError (transform X self).2.
Proof.
  intros Hc [c Hs]. revert Hs. unfold transform, bind.
  rewrite check_configured_eq. destruct (configured self); [|done]. rewrite Hc.
  destruct (compute_target_cases X self) as [(target & -> & _)|(e & -> & He)].
  - unfold get_model, set_index, attr, ret, raise.
    destruct (model self) as [m|]; [|done]. by destruct (decide _).
  - simpl. by destruct He as [->|[c' ->]].
Qed.

Lemma configure_not_schema X self :
  check_X X self = (self, Ok tt) → ¬ is_SchemaError (configure X self).2.
Proof.
  intros Hc [c Hs]. revert Hs.
  destruct (compute_target_cases X self) as [(target & Ht & _)|(e & Ht & He)].
  - rewrite (configure_eq X self target Hc Ht). by destruct (too_few _ _).
  - rewrite (configure_target_fails X self e Hc Ht). simpl.
    by destruct He as [->|[c' ->]].
Qed.

(** C8. For every frame, in [check_X] and so in [configure], which calls it
    first, and in [transform], which calls it once the instance has passed
    [check_configured]: without the column ['RH'] the call raises
    [SchemaError], whatever the metric, so for ['SPI'] and for ['SPEI'];
    with ['RH'] and without ['EV24'] it raises [SchemaError] exactly when
    the metric is ['SPEI'], and with the metric ['SPI'] the check of the
    frame raises nothing. *)
Theorem check_X_schema (self : SPEITransformer) (X : DataFrame) :
  (has_column "RH" X = false →
   check_X X self = (self, Err (SchemaError "RH")) ∧
   (configure X self).2 = Err (SchemaError "RH") ∧
   (configured self = true → (transform X self).2 = Err (SchemaError "RH"))) ∧
  (has_column "RH" X = true → has_column "EV24" X = false →
   (raises (check_X X self).2 ↔ metric self = "SPEI") ∧
   (is_SchemaError (configure X self).2 ↔ metric self = "SPEI") ∧
   (configured self = true →
    (is_SchemaError (transform X self).2 ↔ metric self = "SPEI")) ∧
   (metric self = "SPI" → check_X X self = (self, Ok tt))).
Proof.
  pose proof (check_X_eq X self) as Hc. split.
  - intros Hrh. rewrite Hrh in Hc. simpl in Hc. split; [done|]. split.
    + by rewrite (configure_check_fails X self _ Hc).
    + intros Hconf. unfold transform, bind.
      by rewrite check_configured_eq, Hconf, Hc.
  - intros Hrh Hev. rewrite Hrh, Hev in Hc. simpl in Hc.
    destruct (bool_decide_reflect (metric self = "SPEI")) as [Hm|Hm].
    + split; [by rewrite Hc|]. split; [|split].
      * rewrite (configure_check_fails X self _ Hc). split; [done|]. by eexists.
      * intros Hconf. unfold transform, bind.
        rewrite check_configured_eq, Hconf, Hc. split; [done|]. by eexists.
      * intros Hspi. by rewrite Hspi in Hm.
    + split; [by rewrite Hc|]. split; [|split].
      * split; [|done]. intros Hs. by apply configure_not_schema in Hs.
      * intros _. split; [|done]. intros Hs. by apply transform_not_schema in Hs.
      * done.
Qed.

Lemma check_X_schema_witness :
  let self := (configure leap_day_history (__init__ "SPI" D30 true 4)).1 in
  let X := leap_day_history in
  (raises (check_X X self).2 ↔ metric self = "SPEI") ∧
  (is_SchemaError (configure X self).2 ↔ metric self = "SPEI") ∧
  (configured self = true →
   (is_SchemaError (transform X self).2 ↔ metric self = "SPEI")) ∧
  (metric self = "SPI" → check_X X self = (self, Ok tt)).
Proof.
  apply (check_X_schema (configure leap_day_history (__init__ "SPI" D30 true 4)).1
           leap_day_history).
  - reflexivity.
  - reflexivity.
Defined.

(** A frame without ['RH'] is refused by [configure] for both metrics. *)
Example configure_missing_RH :
  let X := {| index := index leap_day_history; columns := [("EV24", [])] |} in
  (configure X (__init__ "SPI" D30 true 30)).2 = Err (SchemaError "RH") ∧
  (configure X (__init__ "SPEI" D30 true 30)).2 = Err (SchemaError "RH") ∧
  (configure leap_day_history (__init__ "SPEI" D30 true 30)).2
  = Err (SchemaError "EV24").
Proof. repeat split. Qed.

(** C6. [configure] raises [InsufficientHistoryError] exactly when the
    frame passes the check, the target exists and [n_years], the largest
    count of a (month, day) group of the rolling target, is less than
    [min_years]; and a frame whose [n_years] is exactly [min_years] is
    accepted and leaves the instance configured. *)
Theorem configure_insufficient_history (self : SPEITransformer) (X : DataFrame) :
  ((configure X self).2 = Err InsufficientHistoryError ↔
   ∃ target n_years,
     check_X X self = (self, Ok tt) ∧
     compute_target X self = (self, Ok target) ∧
     count_max (sort_values (groupby_agg (results_of target))) = Some n_years ∧
     n_years < min_years self) ∧
  (∀ target,
     check_X X self = (self, Ok tt) →
     compute_target X self = (self, Ok target) →
     count_max (sort_values (groupby_agg (results_of target)))
     = Some (min_years self) →
     (configure X self).2 = Ok tt ∧ configured (configure X self).1 = true).
Proof.
  split.
  - split.
    + destruct (configure_cases X self) as [(e & -> & Hne & _)|(target & Hc & Ht & _)].
      { simpl. by intros [= ->]. }
      rewrite (configure_eq X self target Hc Ht).
      destruct (count_max _) as [n|] eqn:Hn; simpl; [|done].
      destruct (Z.ltb_spec n (min_years self)); [|done].
      intros _. by exists target, n.
    + intros (target & n & Hc & Ht & Hn & Hlt).
      rewrite (configure_eq X self target Hc Ht), Hn. simpl.
      by destruct (Z.ltb_spec n (min_years self)); [|lia].
  - intros target Hc Ht Hn.
    rewrite (configure_eq X self target Hc Ht), Hn. simpl.
    by rewrite Z.ltb_irrefl.
Qed.

Lemma configure_insufficient_history_witness :
  let self := __init__ "SPI" D30 true 4 in
  (configure leap_day_history self).2 = Ok tt ∧
  configured (configure leap_day_history self).1 = true.
Proof.
  refine (proj2 (configure_insufficient_history (__init__ "SPI" D30 true 4)
                   leap_day_history)
            (rolling_mean D30 (zip (index leap_day_history)
                                   (map F64.of_Z [1; 2; 3; 4; 5; 6; 7; 8; 9])))
            _ _ _).
  - reflexivity.
  - reflexivity.
  - vm_compute. reflexivity.
Defined.

(** The row of the model with the key of a timestamp is the one that the
    timestamp joins. *)
Lemma model_entry_elem m t e :
  NoDup (model_keys m) → e ∈ m → month e = dt_month t → day e = dt_day t →
  model_entry m t = Some e.
Proof.
  intros Hnd He Hm Hd.
  assert (Hin : e ∈ filter (λ e, month e = dt_month t ∧ day e = dt_day t) m).
  { by apply list_elem_of_filter. }
  rewrite model_entry_unique in Hin by done.
  destruct (model_entry m t) as [e'|].
  - apply list_elem_of_singleton in Hin. by subst.
  - by apply elem_of_nil in Hin.
Qed.

Lemma z_score_lookup m target i t v e :
  NoDup (model_keys m) → target !! i = Some (t, v) →
  e ∈ m → month e = dt_month t → day e = dt_day t →
  map (z_score m) target !! i = Some (F64.div (F64.sub v (mean e)) (std e)).
Proof.
  intros Hnd Hi He Hm Hd. rewrite map_fmap, list_lookup_fmap, Hi. simpl.
  unfold z_score. simpl. by rewrite (model_entry_elem m t e).
Qed.

(** A day whose values never vary has a standard deviation of zero: the
    score of a different value is infinite, that of the same value is not
    a number, and [transform] returns both. *)
Example transform_zero_std :
  let d y := to_datetime y 3 1 0 0 0 in
  let frame idx vs := {| index := idx; columns := [("RH", map F64.of_Z vs)] |} in
  let self := (configure (frame [d 2000; d 2001] [1; 1]) (__init__ "SPI" D30 false 2)).1 in
  model self = Some [ {| month := 3; day := 1; count := 2;
                         mean := F64.of_Z 1; std := F64.zero |} ] ∧
  (transform (frame [d 2002; d 2003] [2; 1]) self).2
  = Ok {| index := [d 2002; d 2003];
          columns := [("SPI_30D", [S754_infinity false; F64.nan])] |}.
Proof. split; vm_compute; reflexivity. Qed.

(** C9. On every configured instance that calls can produce, and every
    frame that passes the check of its columns, [transform] returns a
    frame with one cell per row of the target and raises nothing. The
    cell of a row that joins a row of the model with a standard deviation
    of zero is infinite or not a number, and the cell of a row that joins
    one whose mean or standard deviation is not a number is not a
    number. *)
Theorem transform_numeric_edge_cases (self : SPEITransformer) (X : DataFrame) :
  Reachable self → configured self = true → check_X X self = (self, Ok tt) →
  ∃ target m out,
    compute_target X self = (self, Ok target) ∧
    model self = Some m ∧
    transform X self
    = (self, Ok {| index := map fst target; columns := [(metric_name self, out)] |}) ∧
    length out = length target ∧
    ∀ i t v e,
      target !! i = Some (t, v) → e ∈ m →
      month e = dt_month t → day e = dt_day t →
      ∃ z, out !! i = Some z ∧
        z = F64.div (F64.sub v (mean e)) (std e) ∧
        (F64.is_zero (std e) = true →
         F64.is_inf z = true ∨ F64.is_nan z = true) ∧
        (F64.is_nan (mean e) = true ∨ F64.is_nan (std e) = true →
         F64.is_nan z = true).
Proof.
  intros Hreach Hconf Hc.
  destruct (Reachable_well_formed self Hreach Hconf) as (Hm & m & Hmodel & Hnd).
  pose proof (check_X_eq X self) as Hc'. rewrite Hc in Hc'.
  destruct (has_column "RH" X) eqn:Hrh; [|done].
  destruct (compute_target_ok X self Hrh) as [target Ht].
  { destruct Hm as [Hm|Hm]; [by left|right]. split; [done|].
    destruct (has_column "EV24" X); [done|]. simpl in Hc'.
    by rewrite bool_decide_eq_true_2 in Hc'. }
  exists target, m, (map (z_score m) target).
  split; [done|]. split; [done|].
  split; [by apply transform_eq|]. split; [apply length_map|].
  intros i t v e Hi He Hmonth Hday. eexists.
  split; [by eapply z_score_lookup|]. split; [done|]. split.
  - apply div_by_zero.
  - intros [Hn|Hn]; [|by apply div_nan_r]. by apply div_nan_l, sub_nan_r.
Qed.

Lemma transform_numeric_edge_cases_witness :
  let self := (configure leap_day_history (__init__ "SPI" D30 false 4)).1 in
  let X := leap_day_history in
  ∃ target m out,
    compute_target X self = (self, Ok target) ∧
    model self = Some m ∧
    transform X self
    = (self, Ok {| index := map fst target; columns := [(metric_name self, out)] |}) ∧
    length out = length target ∧
    ∀ i t v e,
      target !! i = Some (t, v) → e ∈ m →
      month e = dt_month t → day e = dt_day t →
      ∃ z, out !! i = Some z ∧
        z = F64.div (F64.sub v (mean e)) (std e) ∧
        (F64.is_zero (std e) = true →
         F64.is_inf z = true ∨ F64.is_nan z = true) ∧
        (F64.is_nan (mean e) = true ∨ F64.is_nan (std e) = true →
         F64.is_nan z = true).
Proof.
  apply (transform_numeric_edge_cases
           (configure leap_day_history (__init__ "SPI" D30 false 4)).1
           leap_day_history).
  - apply R_configure, R_init.
  - vm_compute. reflexivity.
  - vm_compute. reflexivity.
Defined.

(** C5, as stated, with the default [smoothing=True]: in the model that
    [configure] stores for four years of data, the 29th of February has
    one sample, fewer than half of the four of the other days, and yet a
    mean and a standard deviation that are numbers; and [transform] gives
    the row of that day a number. *)
Lemma configure_smoothing_fills_sparse_key :
  let self := (configure leap_day_history (__init__ "SPI" D30 true 4)).1 in
  ∃ m e out,
    configured self = true ∧ model self = Some m ∧
    count_max m = Some 4 ∧
    m !! 1%nat = Some e ∧ month e = 2 ∧ day e = 29 ∧ count e = 1 ∧
    F64.is_nan (mean e) = false ∧ F64.is_nan (std e) = false ∧
    (transform leap_day_history self).2
    = Ok {| index := index leap_day_history; columns := [("SPI_30D", out)] |} ∧
    dt_month <$> index leap_day_history !! 1%nat = Some 2 ∧
    dt_day <$> index leap_day_history !! 1%nat = Some 29 ∧
    F64.is_nan <$> out !! 1%nat = Some false.
Proof.
  intros self.
  exists (default [] (model self)).
  exists (default {| month := 0; day := 0; count := 0; mean := F64.nan; std := F64.nan |}
            (default [] (model self) !! 1%nat)).
  exists (match (transform leap_day_history self).2 with
          | Ok df => default [] (snd <$> head (columns df))
          | Err _ => []
          end).
  repeat split; vm_compute; reflexivity.
Qed.

Lemma elem_of_mask_sparse n m e :
  e ∈ mask_sparse n m → below_half (count e) n = true →
  mean e = F64.nan ∧ std e = F64.nan.
Proof.
  unfold mask_sparse. rewrite map_fmap. intros (e0 & -> & _)%list_elem_of_fmap.
  destruct (below_half (count e0) n) eqn:Hb; [done|].
  intros Hb'. congruence.
Qed.

Lemma count_max_mask_sparse n m : count_max (mask_sparse n m) = count_max m.
Proof. unfold count_max. by rewrite mask_sparse_counts. Qed.

(** C5, amended. With [smoothing=False], in the model that a successful
    [configure] stores and [transform] reads, every (month, day) key whose
    count is less than half of the largest count has a mean and a standard
    deviation that are not a number, and [transform] gives every row that
    joins such a key a cell that is not a number. *)
Theorem configure_masks_sparse_keys
    (self self' : SPEITransformer) (X : DataFrame) :
  smoothing self = false → configure X self = (self', Ok tt) →
  ∃ m, model self' = Some m ∧ configured self' = true ∧
    ∀ e n_years,
      e ∈ m → count_max m = Some n_years → 2 * count e < n_years →
      mean e = F64.nan ∧ std e = F64.nan ∧
      ∀ X' target i t v,
        check_X X' self' = (self', Ok tt) →
        compute_target X' self' = (self', Ok target) →
        target !! i = Some (t, v) →
        month e = dt_month t → day e = dt_day t →
        ∃ out,
          transform X' self'
          = (self', Ok {| index := map fst target;
                          columns := [(metric_name self', out)] |}) ∧
          out !! i = Some F64.nan.
Proof.
  intros Hs Hconf.
  destruct (configure_cases X self) as [(e & He & _)|(target & Hc & Ht & _)].
  { rewrite He in Hconf. by injection Hconf. }
  rewrite (configure_eq X self target Hc Ht), Hs in Hconf.
  set (m0 := sort_values (groupby_agg (results_of target))) in *.
  destruct (too_few _ _); [done|]. injection Hconf as <-.
  exists (mask_sparse (count_max m0) m0). split; [done|]. split; [done|].
  intros e n He Hn Hlt. rewrite count_max_mask_sparse in Hn.
  destruct (elem_of_mask_sparse _ _ _ He) as [Hmean Hstd].
  { rewrite Hn. simpl. by apply Z.ltb_lt. }
  split; [done|]. split; [done|].
  intros X' target' i t v Hc' Ht' Hi Hmonth Hday.
  destruct (stored_model_NoDup target (count_max m0) false) as [_ Hnd].
  eexists. split; [by apply transform_eq|].
  rewrite (z_score_lookup _ _ i t v e) by done.
  rewrite Hmean, Hstd. by destruct v.
Qed.

Lemma configure_masks_sparse_keys_witness :
  let self := __init__ "SPI" D30 false 4 in
  let self' := (configure leap_day_history self).1 in
  ∃ m, model self' = Some m ∧ configured self' = true ∧
    ∀ e n_years,
      e ∈ m → count_max m = Some n_years → 2 * count e < n_years →
      mean e = F64.nan ∧ std e = F64.nan ∧
      ∀ X' target i t v,
        check_X X' self' = (self', Ok tt) →
        compute_target X' self' = (self', Ok target) →
        target !! i = Some (t, v) →
        month e = dt_month t → day e = dt_day t →
        ∃ out,
          transform X' self'
          = (self', Ok {| index := map fst target;
                          columns := [(metric_name self', out)] |}) ∧
          out !! i = Some F64.nan.
Proof.
  apply (configure_masks_sparse_keys (__init__ "SPI" D30 false 4)
           (configure leap_day_history (__init__ "SPI" D30 false 4)).1
           leap_day_history).
  - reflexivity.
  - vm_compute. reflexivity.
Defined.

(** ** unit_to_seconds *)

Lemma chars_app s1 s2 : Str.chars (s1 ++ s2) = (Str.chars s1 ++ Str.chars s2)%list.
Proof.
  induction s1 as [|c s1 IH]; [done|].
  change (String c s1 ++ s2) with (String c (s1 ++ s2)). simpl. by rewrite IH.
Qed.

Lemma chars_of_chars l : Str.chars (Str.of_chars l) = l.
Proof. apply list_ascii_of_string_of_list_ascii. Qed.

Lemma of_chars_chars s : Str.of_chars (Str.chars s) = s.
Proof. apply string_of_list_ascii_of_string. Qed.

Lemma of_chars_app l1 l2 :
  Str.of_chars (l1 ++ l2) = Str.of_chars l1 ++ Str.of_chars l2.
Proof. induction l1 as [|c l1 IH]; [done|]. simpl. by rewrite IH. Qed.

(** Lowering a character neither makes nor unmakes white space. *)
Lemma isspace_lower_char c : Str.isspace (Str.lower_char c) = Str.isspace c.
Proof. by destruct c as [[] [] [] [] [] [] [] []]. Qed.

Lemma lower_char_idemp c : Str.lower_char (Str.lower_char c) = Str.lower_char c.
Proof. by destruct c as [[] [] [] [] [] [] [] []]. Qed.

Lemma lstrip_chars_spaces pre l :
  Forall (λ c, Str.isspace c = true) pre →
  Str.lstrip_chars (pre ++ l) = Str.lstrip_chars l.
Proof. induction 1 as [|c pre Hc _ IH]; [done|]. simpl. by rewrite Hc. Qed.

(** Stripping on the left keeps what follows a character that stays. *)
Lemma lstrip_chars_app l post :
  Str.lstrip_chars l ≠ [] →
  Str.lstrip_chars (l ++ post) = (Str.lstrip_chars l ++ post)%list.
Proof.
  induction l as [|c l IH]; [done|]. simpl.
  destruct (Str.isspace c); [apply IH|done].
Qed.

Lemma lstrip_chars_all_spaces l :
  Str.lstrip_chars l = [] → Forall (λ c, Str.isspace c = true) l.
Proof.
  induction l as [|c l IH]; [constructor|]. simpl.
  destruct (Str.isspace c) eqn:Hc; [|done]. intros. constructor; auto.
Qed.

Lemma rstrip_chars_spaces l post :
  Forall (λ c, Str.isspace c = true) post →
  Str.rstrip_chars (l ++ post) = Str.rstrip_chars l.
Proof.
  intros Hpost. unfold Str.rstrip_chars. rewrite rev_app_distr.
  rewrite lstrip_chars_spaces; [done|]. by apply Forall_rev.
Qed.

Lemma rstrip_chars_nil_spaces l :
  Forall (λ c, Str.isspace c = true) l → Str.rstrip_chars l = [].
Proof.
  intros Hl. unfold Str.rstrip_chars.
  rewrite <- (app_nil_r (rev l)), lstrip_chars_spaces; [done|]. by apply Forall_rev.
Qed.

(** White space around a string does not survive [strip]. *)
Lemma strip_chars_spaces pre l post :
  Forall (λ c, Str.isspace c = true) pre →
  Forall (λ c, Str.isspace c = true) post →
  Str.rstrip_chars (Str.lstrip_chars (pre ++ l ++ post))
  = Str.rstrip_chars (Str.lstrip_chars l).
Proof.
  intros Hpre Hpost. rewrite lstrip_chars_spaces by done.
  destruct (Str.lstrip_chars l) as [|c l'] eqn:Hl.
  - apply lstrip_chars_all_spaces in Hl.
    rewrite lstrip_chars_spaces by done.
    by rewrite <- (app_nil_r post), lstrip_chars_spaces.
  - rewrite lstrip_chars_app by (by rewrite Hl). rewrite Hl.
    by apply rstrip_chars_spaces.
Qed.

Lemma Forall_isspace_lower l :
  Forall (λ c, Str.isspace c = true) l →
  Forall (λ c, Str.isspace c = true) (map Str.lower_char l).
Proof.
  induction 1 as [|c l Hc _ IH]; constructor; [|done].
  by rewrite isspace_lower_char.
Qed.

(** X1. [unit_to_seconds] ignores white space around the unit and the case
    of its letters: a unit between two runs of white space, and two units
    that differ only in the case of their letters, give the same number of
    seconds or the same error. *)
Theorem unit_to_seconds_strip_lower (pre unit unit' post : string) :
  Forall (λ c, Str.isspace c = true) (Str.chars pre) →
  Forall (λ c, Str.isspace c = true) (Str.chars post) →
  Forall2 (λ c c', Str.lower_char c = Str.lower_char c')
          (Str.chars unit) (Str.chars unit') →
  unit_to_seconds (pre ++ unit ++ post) = unit_to_seconds unit'.
Proof.
  intros Hpre Hpost Hcase.
  assert (Hl : Str.lower unit = Str.lower unit').
  { unfold Str.lower. f_equal.
    induction Hcase as [|c c' l l' Hc _ IH]; [done|]. simpl. by rewrite Hc, IH. }
  assert (Hs : Str.strip (Str.lower (pre ++ unit ++ post)) = Str.strip (Str.lower unit)).
  { unfold Str.strip, Str.lower. f_equal.
    rewrite !chars_of_chars, !chars_app, !map_app.
    by apply strip_chars_spaces; apply Forall_isspace_lower. }
  unfold unit_to_seconds. by rewrite Hs, Hl.
Qed.

Lemma unit_to_seconds_strip_lower_witness :
  unit_to_seconds ("  " ++ "Hours" ++ " ") = unit_to_seconds "hOURS".
Proof.
  apply (unit_to_seconds_strip_lower "  " "Hours" "hOURS" " ").
  - repeat constructor.
  - repeat constructor.
  - repeat constructor.
Defined.

Lemma prefix_nil s : String.prefix "" s = true.
Proof. by destruct s. Qed.

(** Stripping on the right keeps a beginning that ends with a character
    that stays. *)
Lemma rstrip_chars_keeps p c l :
  Str.isspace c = false →
  ∃ l', Str.rstrip_chars ((p ++ [c]) ++ l) = ((p ++ [c]) ++ l')%list.
Proof.
  intros Hc. unfold Str.rstrip_chars. rewrite !rev_app_distr. simpl.
  destruct (Str.lstrip_chars (rev l)) as [|d l'] eqn:Hl.
  - exists []. apply lstrip_chars_all_spaces in Hl.
    rewrite lstrip_chars_spaces by done. simpl. rewrite Hc.
    simpl. by rewrite rev_involutive, app_nil_r.
  - exists (rev (d :: l')). rewrite lstrip_chars_app by (by rewrite Hl).
    rewrite Hl, rev_app_distr. simpl. by rewrite rev_involutive.
Qed.

(** A unit that begins with lower-case letters that are no white space
    keeps them as its beginning after [lower] and [strip]. *)
Lemma normalized_prefix (p : string) c (q s : string) :
  p = String c q →
  Forall (λ c, Str.lower_char c = c ∧ Str.isspace c = false) (Str.chars p) →
  ∃ s', Str.strip (Str.lower (p ++ s)) = p ++ s'.
Proof.
  intros Hp Hall. unfold Str.strip, Str.lower.
  rewrite chars_of_chars, chars_app, map_app.
  assert (Hlow : map Str.lower_char (Str.chars p) = Str.chars p).
  { induction Hall as [|d l [Hd _] _ IH]; [done|]. simpl. by rewrite Hd, IH. }
  rewrite Hlow.
  assert (Hne : Str.chars p ≠ []) by (by rewrite Hp).
  destruct (exists_last Hne) as (l & d & Hlast).
  assert (Hd : Str.isspace d = false).
  { rewrite Hlast in Hall. apply Forall_app in Hall as [_ Hall].
    by inversion Hall as [|?? [_ ?]]. }
  assert (Hfirst : Str.lstrip_chars (Str.chars p ++ map Str.lower_char (Str.chars s))
                   = (Str.chars p ++ map Str.lower_char (Str.chars s))%list).
  { rewrite Hp in Hall |- *. simpl in *. inversion Hall as [|?? [_ Hc] _]; subst.
    by rewrite Hc. }
  rewrite Hfirst, Hlast.
  destruct (rstrip_chars_keeps l d (map Str.lower_char (Str.chars s)) Hd) as [l' ->].
  exists (Str.of_chars l'). by rewrite of_chars_app, <- Hlast, of_chars_chars.
Qed.

(** X2. Every unit that begins with sec, min, hour, day or week is
    accepted, whatever follows (a plural, more words, white space): it is
    1, 60, 3600, 86400 or 604800 seconds. *)
Theorem unit_to_seconds_prefix (rest : string) :
  unit_to_seconds ("sec" ++ rest) = inl 1 ∧
  unit_to_seconds ("min" ++ rest) = inl 60 ∧
  unit_to_seconds ("hour" ++ rest) = inl 3600 ∧
  unit_to_seconds ("day" ++ rest) = inl 86400 ∧
  unit_to_seconds ("week" ++ rest) = inl 604800.
Proof.
  unfold unit_to_seconds, Str.startswith. repeat split.
  - destruct (normalized_prefix "sec" "s" "ec" rest) as [s' ->]; [done| |].
    + repeat constructor.
    + simpl. by rewrite prefix_nil.
  - destruct (normalized_prefix "min" "m" "in" rest) as [s' ->]; [done| |].
    + repeat constructor.
    + simpl. by rewrite prefix_nil.
  - destruct (normalized_prefix "hour" "h" "our" rest) as [s' ->]; [done| |].
    + repeat constructor.
    + simpl. by rewrite prefix_nil.
  - destruct (normalized_prefix "day" "d" "ay" rest) as [s' ->]; [done| |].
    + repeat constructor.
    + simpl. by rewrite prefix_nil.
  - destruct (normalized_prefix "week" "w" "eek" rest) as [s' ->]; [done| |].
    + repeat constructor.
    + simpl. by rewrite prefix_nil.
Qed.

(** Two names that begin with different letters are never both the
    beginning of one string. *)
Lemma prefix_exclusive a b p q u :
  a ≠ b → String.prefix (String a p) u = true → String.prefix (String b q) u = false.
Proof.
  intros Hab. destruct u as [|c u]; [done|]. simpl.
  destruct (ascii_dec a c) as [->|]; [|done]. intros _.
  by destruct (ascii_dec b c) as [->|].
Qed.

(** X3. [unit_to_seconds] returns a number of seconds exactly when the
    unit, lowered and stripped, begins with one of the five names, and
    that number is the one of the name; every other unit, the year and the
    empty string among them, raises the [ValueError] that quotes the
    lowered and stripped unit. *)
Theorem unit_to_seconds_cases (unit : string) :
  let u := Str.strip (Str.lower unit) in
  (∀ n, unit_to_seconds unit = inl n ↔
        Str.startswith u "sec" = true ∧ n = 1 ∨
        Str.startswith u "min" = true ∧ n = 60 ∨
        Str.startswith u "hour" = true ∧ n = 3600 ∨
        Str.startswith u "day" = true ∧ n = 86400 ∨
        Str.startswith u "week" = true ∧ n = 604800) ∧
  (∀ msg, unit_to_seconds unit = inr msg ↔
          Str.startswith u "sec" = false ∧ Str.startswith u "min" = false ∧
          Str.startswith u "hour" = false ∧ Str.startswith u "day" = false ∧
          Str.startswith u "week" = false ∧
          msg = "The unit is '" ++ u
                ++ "', but it must start with sec, min, hour, day or week") ∧
  unit_to_seconds "year" = inr "The unit is 'year', but it must start with sec, min, hour, day or week" ∧
  unit_to_seconds "" = inr "The unit is '', but it must start with sec, min, hour, day or week".
Proof.
  intros u. unfold unit_to_seconds. fold u. unfold Str.startswith.
  split; [|split; [|split; reflexivity]].
  - intros n.
    destruct (String.prefix "sec" u) eqn:H1.
    { rewrite (prefix_exclusive "s" "m" "ec" "in"), (prefix_exclusive "s" "h" "ec" "our"),
        (prefix_exclusive "s" "d" "ec" "ay"), (prefix_exclusive "s" "w" "ec" "eek")
        by done.
      split; [intros [= <-]; by left | intros [[_ ->]|[[? _]|[[? _]|[[? _]|[? _]]]]]; done]. }
    destruct (String.prefix "min" u) eqn:H2.
    { rewrite (prefix_exclusive "m" "h" "in" "our"), (prefix_exclusive "m" "d" "in" "ay"),
        (prefix_exclusive "m" "w" "in" "eek") by done.
      split; [intros [= <-]; right; by left
             | intros [[? _]|[[_ ->]|[[? _]|[[? _]|[? _]]]]]; done]. }
    destruct (String.prefix "hour" u) eqn:H3.
    { rewrite (prefix_exclusive "h" "d" "our" "ay"), (prefix_exclusive "h" "w" "our" "eek")
        by done.
      split; [intros [= <-]; right; right; by left
             | intros [[? _]|[[? _]|[[_ ->]|[[? _]|[? _]]]]]; done]. }
    destruct (String.prefix "day" u) eqn:H4.
    { rewrite (prefix_exclusive "d" "w" "ay" "eek") by done.
      split; [intros [= <-]; right; right; right; by left
             | intros [[? _]|[[? _]|[[? _]|[[_ ->]|[? _]]]]]; done]. }
    destruct (String.prefix "week" u) eqn:H5.
    { split; [intros [= <-]; right; right; right; by right
             | intros [[? _]|[[? _]|[[? _]|[[? _]|[_ ->]]]]]; done]. }
    split; [done | intros [[? _]|[[? _]|[[? _]|[[? _]|[? _]]]]]; done].
  - intros msg.
    destruct (String.prefix "sec" u); [split; [done|by intros [? _]]|].
    destruct (String.prefix "min" u); [split; [done|by intros (_ & ? & _)]|].
    destruct (String.prefix "hour" u); [split; [done|by intros (_ & _ & ? & _)]|].
    destruct (String.prefix "day" u); [split; [done|by intros (_ & _ & _ & ? & _)]|].
    destruct (String.prefix "week" u); [split; [done|by intros (_ & _ & _ & _ & ? & _)]|].
    split; [by intros [= <-] | by intros (_ & _ & _ & _ & _ & ->)].
Qed.

(** ** More on average_winter_time *)

Lemma filter_map {A B} (f : A → B) (P : B → Prop) `{∀ b, Decision (P b)} (l : list A) :
  filter P (map f l) = map f (filter (λ a, P (f a)) l).
Proof.
  induction l as [|a l IH]; [done|]. simpl. rewrite !filter_cons, IH.
  by destruct (decide (P (f a))).
Qed.

Lemma filter_remove_dups {A} `{EqDecision A} (P : A → Prop) `{∀ a, Decision (P a)}
    (l : list A) :
  filter P (remove_dups l) = remove_dups (filter P l).
Proof.
  induction l as [|a l IH]; [done|]. simpl. rewrite filter_cons.
  destruct (decide (P a)) as [Hp|Hp]; simpl; repeat case_decide;
    rewrite ?filter_cons_True, ?filter_cons_False by done; rewrite ?IH; try done.
  - exfalso. match goal with H : a ∉ filter P l |- _ => apply H end.
    by apply list_elem_of_filter.
  - exfalso. match goal with H : a ∈ filter P l |- _ =>
      apply list_elem_of_filter in H as [_ ?] end. done.
Qed.

Lemma remove_dups_NoDup {A} `{EqDecision A} (l : list A) :
  NoDup l → remove_dups l = l.
Proof.
  induction 1 as [|a l Ha _ IH]; [done|]. simpl.
  case_decide; [done|]. by rewrite IH.
Qed.

(** The comparisons are antisymmetric, so the orders of the keys are
    total. *)
Lemma lex_opp c1 c2 : lex (CompOpp c1) (CompOpp c2) = CompOpp (lex c1 c2).
Proof. by destruct c1. Qed.



Lemma key_le_total {K} (compare : K → K → comparison) :
  (∀ a b, compare b a = CompOpp (compare a b)) → Total (key_le compare).
Proof.
  intros Hanti a b. unfold key_le. rewrite (Hanti a b).
  destruct (compare a b); simpl; auto.
Qed.


Lemma data_copy_from_fst s data : map fst (data_copy_from s data) = data.
Proof.
  revert s. induction data as [|x data IH]; intros s; [done|].
  rewrite data_copy_from_cons. simpl. by rewrite IH.
Qed.

(** X5. [average_winter_time] neither drops nor invents a combination of
    time and other columns, and it never adds rows: a combination is in the
    result exactly when it is in the input, and the result is at most as
    long as the input. *)
Theorem average_winter_time_keys (data : list Row) :
  (∀ t o, (∃ r, r ∈ average_winter_time data ∧ TIME r = t ∧ OTHERS r = o) ↔
          (∃ r, r ∈ data ∧ TIME r = t ∧ OTHERS r = o)) ∧
  (length (average_winter_time data) ≤ length data)%nat.
Proof.
  unfold average_winter_time, groupby, tmp_UNID. fold (data_copy_from 0 data).
  rewrite map_map. simpl. split.
  - intros t o. split.
    + intros (r & Hr & <- & <-). rewrite map_fmap in Hr.
      apply list_elem_of_fmap in Hr as ([[t o] u] & -> & Hk). simpl.
      apply elem_of_group_keys in Hk as ([x u'] & Hx & [= <- <- <-]).
      apply data_copy_from_elem in Hx as [Hx _]. eauto.
    + intros (x & Hx & <- & <-).
      assert (∃ u, (x, u) ∈ data_copy_from 0 data) as [u Hu].
      { rewrite <- (data_copy_from_fst 0 data), map_fmap in Hx.
        apply list_elem_of_fmap in Hx as ([x' u] & -> & Hxu). eauto. }
      eexists. split.
      * rewrite map_fmap. apply list_elem_of_fmap.
        exists (TIME x, OTHERS x, u). split; [done|].
        apply elem_of_group_keys. by exists (x, u).
      * done.
  - rewrite length_map. unfold group_keys.
    rewrite merge_sort_Permutation.
    rewrite <- (data_copy_from_fst 0 data) at 2. rewrite length_map.
    rewrite <- (length_map groupcols (data_copy_from 0 data)).
    apply submseteq_length, NoDup_submseteq; [apply NoDup_remove_dups|].
    intros k. by rewrite elem_of_remove_dups.
Qed.

(** The temporary column of a row is -1 or the number of the row. *)
Lemma data_copy_from_snd s data p :
  p ∈ data_copy_from s data → p.2 = -1 ∨ Z.of_nat s ≤ p.2.
Proof.
  revert s. induction data as [|x data IH]; intros s.
  - by intros ?%elem_of_nil.
  - rewrite data_copy_from_cons. intros [->|Hp]%elem_of_cons.
    + simpl. destruct (decide _); [by left|right; lia].
    + apply IH in Hp as [?|?]; [by left|right; lia].
Qed.

(** A row with a row number is alone in its group. *)
Lemma numbered_row_alone s data p :
  p ∈ data_copy_from s data → Z.of_nat s ≤ p.2 →
  filter (λ q, groupcols q = groupcols p) (data_copy_from s data) = [p].
Proof.
  revert s. induction data as [|x data IH]; intros s.
  - by intros ?%elem_of_nil.
  - rewrite data_copy_from_cons. intros Hp Hs. rewrite filter_cons.
    apply elem_of_cons in Hp as [->|Hp].
    + rewrite decide_True by done. f_equal. apply filter_none.
      intros q Hq Heq. apply data_copy_from_snd in Hq.
      assert (q.2 = (if decide (label_dst_at (TIME x) = to_wintertime)
                     then -1 else Z.of_nat s)) as Hq2 by (by injection Heq).
      simpl in Hs. destruct (decide _); lia.
    + pose proof (data_copy_from_snd _ _ _ Hp) as Hp2.
      rewrite decide_False.
      * apply IH; [done|]. lia.
      * intros Heq. assert ((if decide (label_dst_at (TIME x) = to_wintertime)
                             then -1 else Z.of_nat s) = p.2) as Hu by (by injection Heq).
        destruct (decide _); lia.
Qed.

(** The rows of a time that is not in the repeated hour all have a row
    number. *)
Lemma data_copy_from_numbered s data t p :
  label_dst_at t ≠ to_wintertime →
  p ∈ data_copy_from s data → TIME p.1 = t → Z.of_nat s ≤ p.2.
Proof.
  intros Ht. revert s. induction data as [|x data IH]; intros s.
  - by intros ?%elem_of_nil.
  - rewrite data_copy_from_cons. intros [->|Hp]%elem_of_cons.
    + simpl. intros ->. by rewrite decide_False.
    + intros Hpt. specialize (IH _ Hp Hpt). lia.
Qed.

Lemma numbered_rows_NoDup s data t :
  label_dst_at t ≠ to_wintertime →
  NoDup (map groupcols (filter (λ p, TIME p.1 = t) (data_copy_from s data))).
Proof.
  intros Ht. revert s. induction data as [|x data IH]; intros s; [constructor|].
  rewrite data_copy_from_cons, filter_cons.
  destruct (decide _) as [Hx|_]; [|apply IH]. simpl in Hx.
  simpl. constructor; [|apply IH].
  rewrite decide_False by (by rewrite Hx).
  rewrite map_fmap. intros (q & Heq & Hq)%list_elem_of_fmap.
  apply list_elem_of_filter in Hq as [Hqt Hq].
  apply (data_copy_from_numbered _ _ t) in Hq; [|done..].
  assert (Z.of_nat s = q.2) by (by injection Heq). lia.
Qed.

(** X6. The rows outside the repeated hour are never grouped: for a time
    that is not labelled to_wintertime, the result has one row for every
    row of the input with that time, with the same other columns and the
    mean of its one value, even when several rows share the time and the
    other columns. *)
Theorem average_winter_time_keeps_normal_rows (data : list Row) (t : Z) :
  label_dst_at t ≠ to_wintertime →
  filter (λ o, TIME o = t) (average_winter_time data)
  ≡ₚ map (λ x, {| TIME := TIME x; OTHERS := OTHERS x;
                  VALUE := F64.mean [VALUE x] |})
         (filter (λ x, TIME x = t) data).
Proof.
  intros Ht. unfold average_winter_time, groupby, tmp_UNID.
  fold (data_copy_from 0 data). rewrite map_map. simpl.
  rewrite filter_map. simpl. unfold group_keys.
  rewrite !map_fmap, merge_sort_Permutation, filter_remove_dups.
  rewrite <- !map_fmap, (filter_map groupcols (λ k, k.1.1 = t)). simpl.
  rewrite remove_dups_NoDup by (by apply numbered_rows_NoDup).
  rewrite map_map.
  assert (Hrows : ∀ p, p ∈ filter (λ p, TIME p.1 = t) (data_copy_from 0 data) →
            filter (λ q, groupcols q = groupcols p) (data_copy_from 0 data) = [p]).
  { intros p [Hpt Hp]%list_elem_of_filter.
    apply numbered_row_alone; [done|]. by eapply data_copy_from_numbered. }
  rewrite <- (data_copy_from_fst 0 data) at 2.
  rewrite (filter_map fst (λ x, TIME x = t)), map_map.
  induction (filter (λ p, TIME p.1 = t) (data_copy_from 0 data)) as [|p l IH];
    [done|].
  simpl. rewrite (Hrows p) by left. simpl.
  rewrite IH; [done|]. intros q Hq. apply Hrows. by right.
Qed.

Lemma average_winter_time_keeps_normal_rows_witness :
  filter (λ o, TIME o = to_datetime 2018 1 1 16 3 9)
         (average_winter_time (test_data ++ test_data)%list)
  ≡ₚ map (λ x, {| TIME := TIME x; OTHERS := OTHERS x;
                  VALUE := F64.mean [VALUE x] |})
         (filter (λ x, TIME x = to_datetime 2018 1 1 16 3 9)
                 (test_data ++ test_data)%list).
Proof.
  apply (average_winter_time_keeps_normal_rows (test_data ++ test_data)%list
           (to_datetime 2018 1 1 16 3 9)).
  vm_compute. discriminate.
Defined.

(** ** More on label_dst *)

Lemma days_of_day d s : 0 ≤ s < 86400 → days (d * 86400 + s) = d.
Proof.
  intros Hs. unfold days, SECONDS_PER_DAY.
  rewrite Z.add_comm, Z.div_add by lia. rewrite Z.div_small by lia. lia.
Qed.

Lemma hour_of_day d s : 0 ≤ s < 86400 → dt_hour (d * 86400 + s) = s / 3600.
Proof.
  intros Hs. unfold dt_hour, SECONDS_PER_DAY.
  by rewrite Z.add_comm, Z.mod_add, Z.mod_small by lia.
Qed.

(** X7. Within one day the labels to_summertime and to_wintertime cover
    the hour from 02:00:00 to 02:59:59 and nothing else: a timestamp [s]
    seconds into the day [d] has such a label exactly when [s] lies in that
    hour and 02:00:00 of that day has the label. *)
Theorem label_dst_hour (d s : Z) :
  0 ≤ s < 86400 →
  (label_dst_at (d * 86400 + s) = to_wintertime ↔
   7200 ≤ s < 10800 ∧ label_dst_at (d * 86400 + 7200) = to_wintertime) ∧
  (label_dst_at (d * 86400 + s) = to_summertime ↔
   7200 ≤ s < 10800 ∧ label_dst_at (d * 86400 + 7200) = to_summertime).
Proof.
  intros Hs. unfold label_dst_at, last_sunday_morning, dt_day, dt_month, dt_weekday.
  rewrite !days_of_day, !hour_of_day by lia.
  change (7200 / 3600) with 2. rewrite Z.eqb_refl, !andb_true_r.
  assert (Hh : s / 3600 = 2 ↔ 7200 ≤ s < 10800).
  { split; intros H.
    - pose proof (Z.mul_div_le s 3600). pose proof (Z.mul_succ_div_gt s 3600). lia.
    - symmetry. apply (Z.div_unique s 3600 2 (s - 7200)); lia. }
  destruct (Z.eqb_spec (s / 3600) 2) as [He|He];
    rewrite ?andb_true_r, ?andb_false_r; simpl.
  - apply Hh in He. tauto.
  - split; (split; [done|]); intros [Hr _]; apply Hh in Hr; done.
Qed.

Lemma label_dst_hour_witness :
  let d := days (to_datetime 2019 10 27 0 0 0) in
  (label_dst_at (d * 86400 + 9000) = to_wintertime ↔
   7200 ≤ 9000 < 10800 ∧ label_dst_at (d * 86400 + 7200) = to_wintertime) ∧
  (label_dst_at (d * 86400 + 9000) = to_summertime ↔
   7200 ≤ 9000 < 10800 ∧ label_dst_at (d * 86400 + 7200) = to_summertime).
Proof.
  apply (label_dst_hour (days (to_datetime 2019 10 27 0 0 0)) 9000). lia.
Defined.

(** ** More on the SP(E)I transformer *)

(** X8. No method assigns the attributes that [__init__] sets: whether
    they return or raise, [configure], [fit] and [transform] leave the
    window, the metric, the smoothing flag, the minimum of years and the
    two names as they were; so on every instance that calls can produce
    the name of the result column is the metric, an underscore and the
    window. *)
Theorem methods_keep_parameters (self : SPEITransformer) (X : DataFrame) :
  parameters (configure X self).1 = parameters self ∧
  parameters (fit X self).1 = parameters self ∧
  parameters (transform X self).1 = parameters self ∧
  (Reachable self → metric_name self = metric self ++ "_" ++ offset (window self)).
Proof.
  assert (Hc : ∀ X self, parameters (configure X self).1 = parameters self).
  { clear. intros X self.
    destruct (configure_cases X self) as [(e & -> & _)|(target & Hc & Ht & _)]; [done|].
    rewrite (configure_eq X self target Hc Ht). by destruct (too_few _ _). }
  split; [apply Hc|]. split; [done|]. split; [by rewrite transform_fst|].
  induction 1 as [| self' X' _ IH | self' X' _ IH | self' X' _ IH]; [done| |done|].
  - specialize (Hc X' self'). unfold parameters in Hc.
    injection Hc as -> -> _ _ -> _. done.
  - by rewrite transform_fst.
Qed.

Lemma methods_keep_parameters_witness :
  let self := (configure leap_day_history (__init__ "SPI" D30 true 4)).1 in
  metric_name self = metric self ++ "_" ++ offset (window self).
Proof.
  apply (methods_keep_parameters
           (configure leap_day_history (__init__ "SPI" D30 true 4)).1
           leap_day_history).
  apply R_configure, R_init.
Defined.

(** X9. [transform] and [fit] never write to the instance: whatever they
    return or raise, the instance is the same afterwards, so a call of
    either between two other calls changes nothing for the second. *)
Theorem transform_and_fit_read_only (self : SPEITransformer) (X X' : DataFrame) :
  (transform X self).1 = self ∧
  fit X self = (self, Ok tt) ∧
  transform X' (transform X self).1 = transform X' self ∧
  configure X' (transform X self).1 = configure X' self ∧
  transform X' (fit X self).1 = transform X' self ∧
  configure X' (fit X self).1 = configure X' self.
Proof. by rewrite transform_fst. Qed.

(** *** The stored model *)

Lemma month_day_compare_antisym a b :
  month_day_compare b a = CompOpp (month_day_compare a b).
Proof.
  unfold month_day_compare.
  rewrite (Z.compare_antisym a.1), (Z.compare_antisym a.2). apply lex_opp.
Qed.

Lemma key_le_month_day k1 k2 :
  key_le month_day_compare k1 k2 → month_day_le k1 k2.
Proof.
  destruct k1 as [m1 d1], k2 as [m2 d2].
  unfold key_le, month_day_compare, month_day_le. simpl.
  destruct (Z.compare_spec m1 m2); simpl; [|lia|done].
  destruct (Z.compare_spec d1 d2); simpl; [lia|lia|done].
Qed.

Lemma sort_values_sorted m : Sorted month_day_le (model_keys (sort_values m)).
Proof.
  unfold model_keys, sort_values. rewrite map_fmap.
  eapply Sorted_fmap; [|apply Sorted_merge_sort].
  - intros e1 e2. apply key_le_month_day.
  - intros e1 e2. apply (key_le_total _ month_day_compare_antisym).
Qed.

Lemma rolling_mean_from_fst w seen s :
  map fst (rolling_mean_from w seen s) = map fst s.
Proof.
  revert seen. induction s as [|[t v] s IH]; intros seen; [done|].
  simpl. by rewrite IH.
Qed.

Lemma series_sub_fst a b :
  length a = length b → map fst (series_sub a b) = map fst a.
Proof.
  unfold series_sub. revert b. induction a as [|x a IH]; intros [|y b] Hl; try done.
  simpl. rewrite IH; [done|]. by injection Hl.
Qed.

Lemma getitem_rectangular X name s :
  rectangular X → getitem X name = Ok s →
  map fst s = index X ∧ length s = length (index X).
Proof.
  unfold getitem. intros Hr.
  destruct (lookup_column name (columns X)) as [v|] eqn:Hv; [|done].
  intros [= <-].
  assert (Hlen : length v = length (index X)).
  { revert Hv. unfold rectangular in Hr.
    induction Hr as [|[n c] cols Hc _ IH]; [done|]. simpl.
    destruct (decide (n = name)); [by intros [= <-]|done]. }
  split.
  - rewrite map_fmap. apply fst_zip. lia.
  - rewrite length_zip. lia.
Qed.

(** The target carries the index of a rectangular frame. *)
Lemma compute_target_index X self target :
  rectangular X → compute_target X self = (self, Ok target) →
  map fst target = index X.
Proof.
  intros Hr. unfold compute_target, bind, attr, raise, ret, lift.
  destruct (decide (metric self = "SPI")).
  - destruct (getitem X "RH") as [rh|] eqn:Hrh; [|done]. intros [= <-].
    unfold rolling_mean. rewrite rolling_mean_from_fst.
    by apply (getitem_rectangular X "RH").
  - destruct (decide (metric self = "SPEI")); [|done].
    destruct (getitem X "RH") as [rh|] eqn:Hrh; [|done].
    destruct (getitem X "EV24") as [ev|] eqn:Hev; [|done]. intros [= <-].
    unfold rolling_mean. rewrite rolling_mean_from_fst.
    destruct (getitem_rectangular X "RH" rh Hr Hrh) as [Hi Hl].
    destruct (getitem_rectangular X "EV24" ev Hr Hev) as [_ Hl'].
    rewrite series_sub_fst; [done|]. lia.
Qed.

Lemma results_of_keys target :
  map (λ r, (r_month r, r_day r)) (results_of target)
  = map (λ t, (dt_month t, dt_day t)) (map fst target).
Proof. unfold results_of. by rewrite !map_map. Qed.

(** What a returning [configure] has stored. *)
Lemma configure_ok_model X self self' :
  configure X self = (self', Ok tt) →
  ∃ target,
    check_X X self = (self, Ok tt) ∧
    compute_target X self = (self, Ok target) ∧
    let m := sort_values (groupby_agg (results_of target)) in
    let n_years := count_max m in
    too_few n_years (min_years self) = false ∧
    self' = with_configured true
              (with_model (if smoothing self then smooth (mask_sparse n_years m)
                           else mask_sparse n_years m) self).
Proof.
  intros Hconf.
  destruct (configure_cases X self) as [(e & He & _)|(target & Hc & Ht & _)].
  { rewrite He in Hconf. by injection Hconf. }
  exists target. split; [done|]. split; [done|].
  rewrite (configure_eq X self target Hc Ht) in Hconf. cbv zeta in *.
  destruct (too_few _ _); [done|]. split; [done|]. by injection Hconf.
Qed.

Lemma stored_model_keys (b : bool) n m :
  model_keys (if b then smooth (mask_sparse n m) else mask_sparse n m) = model_keys m.
Proof. destruct b; by rewrite ?smooth_keys, mask_sparse_keys. Qed.

(** X10. After a [configure] that returns on a rectangular frame, the
    model has exactly one row for every (month, day) that occurs in the
    index of the frame, the 29th of February included, and no other row,
    and its rows are in the order of the calendar. *)
Theorem configure_model_keys (self self' : SPEITransformer) (X : DataFrame) :
  rectangular X → configure X self = (self', Ok tt) →
  ∃ m, model self' = Some m ∧
    NoDup (model_keys m) ∧
    Sorted month_day_le (model_keys m) ∧
    ∀ k, k ∈ model_keys m ↔ ∃ t, t ∈ index X ∧ k = (dt_month t, dt_day t).
Proof.
  intros Hr Hconf.
  destruct (configure_ok_model X self self' Hconf) as (target & Hc & Ht & _ & ->).
  eexists. split; [done|]. rewrite stored_model_keys.
  split; [apply (stored_model_NoDup target None false)|].
  split; [apply sort_values_sorted|].
  intros k. rewrite sort_values_keys, groupby_agg_keys, elem_of_group_keys.
  rewrite <- (compute_target_index X self target Hr Ht). split.
  - intros (r & Hin & <-). unfold results_of in Hin. rewrite map_fmap in Hin.
    apply list_elem_of_fmap in Hin as ([t v] & -> & Hin). exists t. split; [|done].
    rewrite map_fmap. apply list_elem_of_fmap. by exists (t, v).
  - intros (t & Hin & ->). rewrite map_fmap in Hin.
    apply list_elem_of_fmap in Hin as ([t' v] & -> & Hin).
    exists {| r_time := t'; r_target := v; r_month := dt_month t'; r_day := dt_day t' |}.
    split; [|done]. unfold results_of. rewrite map_fmap. apply list_elem_of_fmap.
    by exists (t', v).
Qed.

Lemma configure_model_keys_witness :
  let self := __init__ "SPI" D30 true 4 in
  ∃ m, model (configure leap_day_history self).1 = Some m ∧
    NoDup (model_keys m) ∧
    Sorted month_day_le (model_keys m) ∧
    ∀ k, k ∈ model_keys m
         ↔ ∃ t, t ∈ index leap_day_history ∧ k = (dt_month t, dt_day t).
Proof.
  apply (configure_model_keys (__init__ "SPI" D30 true 4)
           (configure leap_day_history (__init__ "SPI" D30 true 4)).1
           leap_day_history).
  - repeat constructor.
  - vm_compute. reflexivity.
Defined.

Lemma zip_with_field {X C} (g : ModelRow → C) (f : ModelRow → X → ModelRow) m xs :
  length m = length xs → (∀ e x, g (f e x) = g e) →
  map g (zip_with f m xs) = map g m.
Proof.
  intros Hlen Hf. revert xs Hlen. induction m as [|e m IH]; intros [|x xs] Hlen;
    try done.
  simpl. rewrite Hf. f_equal. apply IH. by injection Hlen.
Qed.

Lemma smooth_counts m : map count (smooth m) = map count m.
Proof.
  unfold smooth.
  assert (Hlen1 : length m = length (rolling_median5 (map mean m))).
  { by rewrite rolling_median5_length, length_map. }
  rewrite zip_with_field; [by apply zip_with_field| |done].
  rewrite rolling_median5_length, length_map, length_zip_with.
  rewrite <- Hlen1. lia.
Qed.

Lemma count_max_smooth m : count_max (smooth m) = count_max m.
Proof. unfold count_max. by rewrite smooth_counts. Qed.

(** The largest count is the count of a row and bounds the others. *)
Lemma count_max_spec m n :
  count_max m = Some n →
  (∃ e, e ∈ m ∧ count e = n) ∧ ∀ e, e ∈ m → count e ≤ n.
Proof.
  unfold count_max. destruct m as [|e0 m]; [done|]. simpl. intros [= <-].
  induction m as [|e m IH]; simpl.
  - split; [exists e0; split; [left|done]|].
    by intros e [->|?%elem_of_nil]%elem_of_cons.
  - destruct IH as [(e1 & He1 & Hc1) Hle]. split.
    + destruct (Z.max_spec (count e) (foldr Z.max (count e0) (map count m)))
        as [[_ ->]|[_ ->]].
      * exists e1. split; [|done].
        apply elem_of_cons in He1 as [->|?]; [left|by do 2 right].
      * exists e. split; [|done]. right. left.
    + intros e' He'. apply elem_of_cons in He' as [->|He'].
      * specialize (Hle e0 ltac:(left)). lia.
      * apply elem_of_cons in He' as [->|He']; [lia|].
        specialize (Hle e' ltac:(by right)). lia.
Qed.

(** X11. A [configure] that returns with a model that is not empty has
    found a (month, day) with at least [min_years] samples: some row of the
    stored model has the largest count, and that count is [min_years] or
    more. *)
Theorem configure_enough_years (self self' : SPEITransformer) (X : DataFrame)
    (m : list ModelRow) :
  configure X self = (self', Ok tt) → model self' = Some m → m ≠ [] →
  ∃ e, e ∈ m ∧ min_years self ≤ count e ∧ ∀ e', e' ∈ m → count e' ≤ count e.
Proof.
  intros Hconf Hm Hne.
  destruct (configure_ok_model X self self' Hconf) as (target & _ & _ & Htf & ->).
  cbv zeta in *. simpl in Hm. injection Hm as <-.
  set (m0 := sort_values (groupby_agg (results_of target))) in *.
  assert (Hcm : count_max (if smoothing self then smooth (mask_sparse (count_max m0) m0)
                           else mask_sparse (count_max m0) m0) = count_max m0).
  { destruct (smoothing self); by rewrite ?count_max_smooth, count_max_mask_sparse. }
  destruct (count_max m0) as [n|] eqn:Hn.
  - simpl in Htf. apply Z.ltb_ge in Htf.
    destruct (count_max_spec _ _ Hcm) as [(e & He & Hc) Hle].
    exists e. split; [done|]. split; [lia|]. intros e' He'. rewrite Hc. by apply Hle.
  - exfalso. unfold count_max in Hcm.
    destruct (map count _) eqn:Hmap; [|done].
    apply Hne. by destruct (if smoothing self then _ else _).
Qed.

Lemma configure_enough_years_witness :
  let self := __init__ "SPI" D30 false 4 in
  let m := default [] (model (configure leap_day_history self).1) in
  ∃ e, e ∈ m ∧ min_years self ≤ count e ∧ ∀ e', e' ∈ m → count e' ≤ count e.
Proof.
  apply (configure_enough_years (__init__ "SPI" D30 false 4)
           (configure leap_day_history (__init__ "SPI" D30 false 4)).1
           leap_day_history).
  - vm_compute. reflexivity.
  - vm_compute. reflexivity.
  - vm_compute. discriminate.
Defined.

Lemma getitem_empty X name s : index X = [] → getitem X name = Ok s → s = [].
Proof.
  unfold getitem. intros ->. destruct (lookup_column _ _); [|done]. by intros [= <-].
Qed.

(** X12. A frame without rows is never refused for its history: with the
    columns of the metric but an empty index, [configure] returns whatever
    [min_years] is, because the largest count of an empty model is not a
    number and compares below nothing; the instance is configured with an
    empty model. *)
Theorem configure_empty_frame (self : SPEITransformer) (X : DataFrame) :
  index X = [] → check_X X self = (self, Ok tt) →
  metric self = "SPI" ∨ metric self = "SPEI" →
  configure X self = (with_configured true (with_model [] self), Ok tt).
Proof.
  intros Hi Hc Hm.
  pose proof (check_X_eq X self) as Hc'. rewrite Hc in Hc'.
  destruct (has_column "RH" X) eqn:Hrh; [|done].
  destruct (compute_target_ok X self Hrh) as [target Ht].
  { destruct Hm as [Hm|Hm]; [by left|right]. split; [done|].
    destruct (has_column "EV24" X); [done|]. simpl in Hc'.
    by rewrite bool_decide_eq_true_2 in Hc'. }
  assert (target = []) as ->.
  { revert Ht. unfold compute_target, bind, attr, raise, ret, lift.
    destruct (decide (metric self = "SPI")).
    - destruct (getitem X "RH") as [rh|] eqn:Hg; [|done].
      apply getitem_empty in Hg as ->; [|done]. by intros [= <-].
    - destruct (decide (metric self = "SPEI")); [|done].
      destruct (getitem X "RH") as [rh|] eqn:Hg; [|done].
      apply getitem_empty in Hg as ->; [|done].
      destruct (getitem X "EV24") as [ev|]; [|done]. by intros [= <-]. }
  rewrite (configure_eq X self [] Hc Ht). simpl.
  by destruct (smoothing self).
Qed.

Lemma configure_empty_frame_witness :
  let self := __init__ "SPI" D30 true 30 in
  let X := {| index := []; columns := [("RH", [])] |} in
  configure X self = (with_configured true (with_model [] self), Ok tt).
Proof.
  apply (configure_empty_frame (__init__ "SPI" D30 true 30)
           {| index := []; columns := [("RH", [])] |}).
  - reflexivity.
  - reflexivity.
  - by left.
Defined.

Lemma model_entry_none m t :
  (dt_month t, dt_day t) ∉ model_keys m → model_entry m t = None.
Proof.
  intros Hk. unfold model_entry. rewrite filter_none; [done|].
  intros e He [Hm Hd]. apply Hk. unfold model_keys. rewrite map_fmap.
  apply list_elem_of_fmap. exists e. split; [|done]. by rewrite Hm, Hd.
Qed.

(** X13. A day that the model does not know is no error: on a configured
    instance that calls can produce, [transform] returns, and the cell of
    every row whose (month, day) has no row in the model is not a
    number. *)
Theorem transform_unknown_day (self : SPEITransformer) (X : DataFrame)
    (target : list (Z * float)) (m : list ModelRow) (i : nat) (t : Z) (v : float) :
  Reachable self → configured self = true →
  check_X X self = (self, Ok tt) →
  compute_target X self = (self, Ok target) →
  model self = Some m →
  target !! i = Some (t, v) →
  (dt_month t, dt_day t) ∉ model_keys m →
  ∃ out,
    transform X self
    = (self, Ok {| index := map fst target; columns := [(metric_name self, out)] |}) ∧
    out !! i = Some F64.nan.
Proof.
  intros Hreach Hconf Hc Ht Hm Hi Hk.
  destruct (Reachable_well_formed self Hreach Hconf) as (_ & m' & Hm' & Hnd).
  rewrite Hm in Hm'. injection Hm' as <-.
  exists (map (z_score m) target). split; [by apply transform_eq|].
  rewrite map_fmap, list_lookup_fmap, Hi. simpl. unfold z_score. simpl.
  rewrite model_entry_none by done. by destruct v.
Qed.

Lemma transform_unknown_day_witness :
  let self := (configure leap_day_history (__init__ "SPI" D30 true 4)).1 in
  let X := {| index := [to_datetime 2004 7 14 0 0 0]; columns := [("RH", [F64.of_Z 3])] |} in
  ∃ out,
    transform X self
    = (self, Ok {| index := map fst [(to_datetime 2004 7 14 0 0 0, F64.of_Z 3)];
                   columns := [(metric_name self, out)] |}) ∧
    out !! 0%nat = Some F64.nan.
Proof.
  apply (transform_unknown_day
           (configure leap_day_history (__init__ "SPI" D30 true 4)).1
           {| index := [to_datetime 2004 7 14 0 0 0]; columns := [("RH", [F64.of_Z 3])] |}
           [(to_datetime 2004 7 14 0 0 0, F64.of_Z 3)]
           (default [] (model (configure leap_day_history (__init__ "SPI" D30 true 4)).1))
           0 (to_datetime 2004 7 14 0 0 0) (F64.of_Z 3)).
  - apply R_configure, R_init.
  - vm_compute. reflexivity.
  - vm_compute. reflexivity.
  - vm_compute. reflexivity.
  - vm_compute. reflexivity.
  - reflexivity.
  - vm_compute. intros H. repeat (apply elem_of_cons in H as [H|H]; [discriminate|]).
    by apply elem_of_nil in H.
Defined.

Lemma has_column_ext name X X' :
  lookup_column name (columns X) = lookup_column name (columns X') →
  has_column name X = has_column name X'.
Proof.
  intros Hl. apply eq_true_iff_eq. by rewrite !has_column_lookup, Hl.
Qed.

(** X14. With the metric ['SPI'] nothing but the index and the column
    ['RH'] of a frame is read: two frames with the same index and the same
    ['RH'] column give the same outcome and the same instance in
    [configure] and in [transform], whatever their other columns, ['EV24']
    included. *)
Theorem SPI_reads_only_RH (self : SPEITransformer) (X X' : DataFrame) :
  metric self = "SPI" →
  index X = index X' →
  lookup_column "RH" (columns X) = lookup_column "RH" (columns X') →
  configure X self = configure X' self ∧ transform X self = transform X' self.
Proof.
  intros Hm Hi Hrh.
  assert (Hc : check_X X self = check_X X' self).
  { rewrite !check_X_eq, (has_column_ext "RH" X X' Hrh), Hm. simpl.
    by rewrite !andb_false_r. }
  assert (Ht : compute_target X self = compute_target X' self).
  { unfold compute_target, bind, attr, lift. rewrite !decide_True by done.
    unfold getitem. by rewrite Hi, Hrh. }
  split.
  - unfold configure, bind. rewrite Hc. rewrite check_X_eq.
    destruct (negb _); [done|]. destruct (_ && _); [done|]. by rewrite Ht.
  - unfold transform, bind. rewrite check_configured_eq.
    destruct (configured self); [|done]. rewrite Hc, check_X_eq.
    destruct (negb _); [done|]. destruct (_ && _); [done|]. by rewrite Ht.
Qed.

Lemma SPI_reads_only_RH_witness :
  let self := __init__ "SPI" D30 true 4 in
  let X' := {| index := index leap_day_history;
               columns := ("EV24", []) :: columns leap_day_history |} in
  configure leap_day_history self = configure X' self ∧
  transform leap_day_history self = transform X' self.
Proof.
  apply (SPI_reads_only_RH (__init__ "SPI" D30 true 4) leap_day_history
           {| index := index leap_day_history;
              columns := ("EV24", []) :: columns leap_day_history |}).
  - reflexivity.
  - reflexivity.
  - reflexivity.
Defined.

(** X15. A metric other than ['SPI'] and ['SPEI'] is never found out by
    [__init__] or [check_X], but such an instance can never be configured:
    after any calls it is unconfigured, [configure] raises the error of the
    invalid metric on every frame that has ['RH'] and leaves the instance
    alone, and [transform] raises [NotConfiguredError]. *)
Theorem invalid_metric_never_configured (self : SPEITransformer) :
  Reachable self → metric self ≠ "SPI" → metric self ≠ "SPEI" →
  configured self = false ∧
  (∀ X, has_column "RH" X = true → configure X self = (self, Err InvalidMetric)) ∧
  (∀ X, transform X self = (self, Err NotConfiguredError)).
Proof.
  intros Hreach Hspi Hspei.
  assert (Hconf : configured self = false).
  { destruct (configured self) eqn:Hc; [|done].
    destruct (Reachable_well_formed self Hreach Hc) as [[?|?] _]; done. }
  split; [done|]. split; [|intros X; by apply transform_unconfigured].
  intros X Hrh. apply configure_target_fails.
  - rewrite check_X_eq, Hrh. simpl.
    by rewrite bool_decide_eq_false_2, andb_false_r.
  - unfold compute_target, bind, attr, raise.
    by rewrite !decide_False.
Qed.

Lemma invalid_metric_never_configured_witness :
  let self := (configure leap_day_history (__init__ "spi" D30 true 4)).1 in
  configured self = false ∧
  (∀ X, has_column "RH" X = true → configure X self = (self, Err InvalidMetric)) ∧
  (∀ X, transform X self = (self, Err NotConfiguredError)).
Proof.
  apply (invalid_metric_never_configured
           (configure leap_day_history (__init__ "spi" D30 true 4)).1).
  - apply R_configure, R_init.
  - vm_compute. discriminate.
  - vm_compute. discriminate.
Defined.

(** *** No look-ahead *)

Lemma lookup_column_head n name cols :
  lookup_column name (map (λ c, (c.1, take n c.2)) cols)
  = take n <$> lookup_column name cols.
Proof.
  induction cols as [|[c v] cols IH]; [done|]. simpl.
  by destruct (decide (c = name)).
Qed.

Lemma has_column_head n name X : has_column name (head_rows n X) = has_column name X.
Proof.
  unfold has_column, head_rows. simpl. by rewrite map_map.
Qed.

Lemma getitem_head n X name :
  getitem (head_rows n X) name
  = match getitem X name with Ok s => Ok (take n s) | Err e => Err e end.
Proof.
  unfold getitem, head_rows. simpl. rewrite lookup_column_head.
  destruct (lookup_column name (columns X)); simpl; [|done].
  by rewrite zip_with_take.
Qed.

Lemma series_sub_take n a b :
  series_sub (take n a) (take n b) = take n (series_sub a b).
Proof. unfold series_sub. by rewrite zip_with_take. Qed.

(** The rolling mean at a row reads that row and earlier ones only. *)
Lemma rolling_mean_from_take w seen n s :
  rolling_mean_from w seen (take n s) = take n (rolling_mean_from w seen s).
Proof.
  revert seen n. induction s as [|[t v] s IH]; intros seen [|n]; try done.
  simpl. by rewrite IH.
Qed.

Lemma check_X_head n X self : check_X (head_rows n X) self = check_X X self.
Proof. by rewrite !check_X_eq, !has_column_head. Qed.

Lemma compute_target_head n X self target :
  compute_target X self = (self, Ok target) →
  compute_target (head_rows n X) self = (self, Ok (take n target)).
Proof.
  unfold compute_target, bind, attr, raise, ret, lift. rewrite !getitem_head.
  destruct (decide (metric self = "SPI")).
  - destruct (getitem X "RH") as [rh|]; [|done]. intros [= <-].
    unfold rolling_mean. by rewrite rolling_mean_from_take.
  - destruct (decide (metric self = "SPEI")); [|done].
    destruct (getitem X "RH") as [rh|]; [|done].
    destruct (getitem X "EV24") as [ev|]; [|done]. intros [= <-].
    unfold rolling_mean. by rewrite series_sub_take, rolling_mean_from_take.
Qed.

(** What a returning [transform] has read. *)
Lemma transform_ok_inv X self self' df :
  transform X self = (self', Ok df) →
  configured self = true ∧ check_X X self = (self, Ok tt) ∧
  ∃ target, compute_target X self = (self, Ok target).
Proof.
  unfold transform, bind. rewrite check_configured_eq.
  destruct (configured self); [|done]. rewrite check_X_eq.
  destruct (negb _); [done|]. destruct (_ && _); [done|].
  destruct (compute_target_cases X self) as [(target & Ht & _)|(e & -> & _)]; [|done].
  eauto.
Qed.

(** X16. The score of a row does not depend on later rows: on an instance
    that calls can produce, when [transform] returns a frame for [X], it
    returns for the first [n] rows of [X] the first [n] rows of that
    frame. *)
Theorem transform_no_look_ahead (self self' : SPEITransformer) (X df : DataFrame)
    (n : nat) :
  Reachable self → transform X self = (self', Ok df) →
  transform (head_rows n X) self = (self, Ok (head_rows n df)).
Proof.
  intros Hreach Htr.
  destruct (transform_ok_inv X self self' df Htr) as (Hconf & Hc & target & Ht).
  destruct (Reachable_well_formed self Hreach Hconf) as (_ & m & Hm & Hnd).
  rewrite (transform_eq X self target m Hconf Hc Ht Hm Hnd) in Htr.
  injection Htr as _ <-.
  rewrite (transform_eq (head_rows n X) self (take n target) m); try done.
  - unfold head_rows. simpl. by rewrite !map_fmap, !fmap_take.
  - by rewrite check_X_head.
  - by apply compute_target_head.
Qed.

Lemma transform_no_look_ahead_witness :
  let self := (configure leap_day_history (__init__ "SPI" D30 true 4)).1 in
  let df := match (transform leap_day_history self).2 with
            | Ok df => df
            | Err _ => leap_day_history
            end in
  transform (head_rows 3 leap_day_history) self = (self, Ok (head_rows 3 df)).
Proof.
  apply (transform_no_look_ahead
           (configure leap_day_history (__init__ "SPI" D30 true 4)).1
           (configure leap_day_history (__init__ "SPI" D30 true 4)).1
           leap_day_history).
  - apply R_configure, R_init.
  - vm_compute. reflexivity.
Defined.

(** *** What configure leaves behind *)

(** X17. A [configure] that raises restores nothing: after an error of the
    columns or of the metric the instance is exactly as before, but after
    the error of [min_years] it holds the model grouped from the refused
    frame, neither masked nor smoothed, in place of the one it had, and a
    configured instance stays configured with it. *)
Theorem configure_raise_effect (self : SPEITransformer) (X : DataFrame) (e : error) :
  (configure X self).2 = Err e →
  (e ≠ InsufficientHistoryError → (configure X self).1 = self) ∧
  (e = InsufficientHistoryError →
   ∃ target,
     compute_target X self = (self, Ok target) ∧
     (configure X self).1
     = with_model (sort_values (groupby_agg (results_of target))) self ∧
     configured (configure X self).1 = configured self).
Proof.
  destruct (configure_cases X self) as [(e' & He & Hne & _)|(target & Hc & Ht & _)].
  - rewrite He. simpl. intros [= <-]. split; [done|]. by intros ->.
  - rewrite (configure_eq X self target Hc Ht).
    destruct (too_few _ _); [|done]. simpl. intros [= <-].
    split; [done|]. intros _. by exists target.
Qed.

Lemma configure_raise_effect_witness :
  let d y := to_datetime y 3 1 0 0 0 in
  let two_years := {| index := [d 2000; d 2001]; columns := [("RH", map F64.of_Z [1; 1])] |} in
  let one_year := {| index := [d 2002]; columns := [("RH", [F64.of_Z 5])] |} in
  let self := (configure two_years (__init__ "SPI" D30 false 2)).1 in
  ∃ target,
    compute_target one_year self = (self, Ok target) ∧
    (configure one_year self).1
    = with_model (sort_values (groupby_agg (results_of target))) self ∧
    configured (configure one_year self).1 = configured self.
Proof.
  intros d two_years one_year self.
  refine (proj2 (configure_raise_effect self one_year InsufficientHistoryError _) _).
  - vm_compute. reflexivity.
  - reflexivity.
Defined.

(** X18. A [configure] that returns starts afresh: the instance it leaves
    depends on the frame and on the parameters only, not on the model or on
    the flag that an earlier [configure] left, so for two instances with
    the same parameters it returns for both or for neither, and leaves the
    same instance. *)
Theorem configure_overwrites (self1 self2 self' : SPEITransformer) (X : DataFrame) :
  parameters self1 = parameters self2 →
  configure X self1 = (self', Ok tt) →
  configure X self2 = (self', Ok tt).
Proof.
  intros Hp Hconf. unfold parameters in Hp.
  injection Hp as Hw Hm Hs Hy Hn Ha.
  destruct (configure_ok_model X self1 self' Hconf) as (target & Hc & Ht & Htf & ->).
  cbv zeta in *.
  assert (Hc2 : check_X X self2 = (self2, Ok tt)).
  { rewrite check_X_eq in Hc |- *. rewrite <- Hm.
    destruct (negb _); [done|]. by destruct (_ && _). }
  assert (Ht2 : compute_target X self2 = (self2, Ok target)).
  { revert Ht. unfold compute_target, bind, attr, raise, ret, lift.
    rewrite <- Hm, <- Hw.
    destruct (decide (metric self1 = "SPI")).
    - destruct (getitem X "RH"); [|done]. by intros [= <-].
    - destruct (decide (metric self1 = "SPEI")); [|done].
      destruct (getitem X "RH"); [|done]. destruct (getitem X "EV24"); [|done].
      by intros [= <-]. }
  rewrite (configure_eq X self2 target Hc2 Ht2), <- Hy, Htf, <- Hs.
  unfold with_configured, with_model. simpl.
  by rewrite Hw, Hm, Hs, Hy, Hn, Ha.
Qed.

Lemma configure_overwrites_witness :
  let fresh := __init__ "SPI" D30 false 2 in
  let d y := to_datetime y 3 1 0 0 0 in
  let other := {| index := [d 2000; d 2001]; columns := [("RH", map F64.of_Z [1; 1])] |} in
  let used := (configure other fresh).1 in
  configure leap_day_history used
  = ((configure leap_day_history fresh).1, Ok tt).
Proof.
  intros fresh d other used.
  apply (configure_overwrites fresh used (configure leap_day_history fresh).1
           leap_day_history).
  - vm_compute. reflexivity.
  - vm_compute. reflexivity.
Defined.
